(** * Fitness API: nutrition totals and goal progress

    A shallow embedding of the two computations of the fitness-tracking
    REST API that carry business logic:

    - the nutrition-entry write, in its two versions:
      [POST /entries] of [backend/routes/nutrition/nutrition.js], the
      route the server mounts, and [POST /nutrition-entries] of
      [backend/routes/routes.js], the old monolith file, which no file
      of the server imports;
    - the routes of [backend/routes/goals/goals.js] on one goal:
      [POST /:id/progress], [GET /:id], [PUT /:id] and [DELETE /:id],
      with the helpers [checkMilestoneCompletion], [checkGoalCompletion],
      [calculateGoalProgress], [getRecentProgressForGoal],
      [handleGoalCompletion] and [createMilestoneNotification].

    Conventions of the embedding.

    - A JavaScript number is a value of a type [num] with the operations
      the handlers use (the class [Number]).  The handlers are written
      once, for every such arithmetic.  [Double] is the arithmetic of the
      program: IEEE 754 binary64, with [Math.round] and [Math.min] of
      ECMAScript.  [Exact] is the arithmetic of the rationals, in which
      the statements on signs and order are proved.
    - A [Date] is its time value in milliseconds ([Z]); [new Date()] reads
      the clock, one instant per request.
    - A collection of the document store is a finite map from document id
      to document ([Food], [Goal]) or a list of documents in insertion
      order ([NutritionEntry], [Notification]).
    - A document has the paths of its Mongoose schema.  A property that
      the schema does not declare reads [undefined] on a document: it is
      an [option] that is [None].
    - [doc.save()] runs the validation of the model and either stores the
      document or throws; which documents validate is a parameter of each
      handler, except for the [enum] validators of the Notification
      schema, which are part of the model.  A thrown error reaches the
      [catch] of the handler, which answers 500; what was stored before
      the throw stays stored.
    - A route is embedded from its handler, the [async (req, res)]
      function.  The middleware that runs before it is not: the
      authentication, the validation chain, which a request body has
      passed, and [logActivity], which writes an ActivityLog whatever
      the handler answers.
    - An optional property of a body or of a document is an [option]. *)

From Stdlib Require Import QArith Qround Qminmax Lqa ZArith Ascii String List Lia.
From Stdlib Require Import PrimFloat FloatOps SpecFloat.
From stdpp Require Import gmap strings list fin_maps.

(** ** Numbers *)

Declare Scope num_scope.
Delimit Scope num_scope with num.

(** The operations on numbers that the handlers use: literals, [+], [*],
    [/], [<], [<=] (and [>=], its converse), [===], [Math.round] and
    [Math.min]. *)
Class Number (num : Type) : Type := {
  num_of_Z : Z -> num;
  num_add : num -> num -> num;
  num_mul : num -> num -> num;
  num_div : num -> num -> num;
  num_ltb : num -> num -> bool;
  num_leb : num -> num -> bool;
  num_eqb : num -> num -> bool;
  Math_round : num -> num;
  Math_min : num -> num -> num
}.

Notation "0" := (num_of_Z 0%Z) : num_scope.
Notation "10" := (num_of_Z 10%Z) : num_scope.
Notation "100" := (num_of_Z 100%Z) : num_scope.
Infix "+" := num_add : num_scope.
Infix "*" := num_mul : num_scope.
Infix "/" := num_div : num_scope.
Infix "<?" := num_ltb : num_scope.
Infix "<=?" := num_leb : num_scope.
Infix "=?" := num_eqb : num_scope.
Notation "x >=? y" := (num_leb y x) (at level 70, no associativity) : num_scope.

(** [Math.round(x * 10) / 10]. *)
Definition round1 {num : Type} `{Number num} (x : num) : num :=
  (Math_round (x * 10) / 10)%num.

(** The sum of a list of numbers, added from the left, starting at 0:
    what [total += x] gives over the list. *)
Definition sumLeft {num : Type} `{Number num} (l : list num) : num :=
  foldl num_add 0%num l.

(** *** The rationals *)

(** [Math.round] on a rational: halves go up. *)
Definition Q_round (x : Q) : Q := inject_Z (Qfloor (x + (1 # 2))).

(** [x < y] on rationals, as a boolean. *)
Definition Qltb (x y : Q) : bool := negb (Qle_bool y x).

Global Instance Exact : Number Q := {|
  num_of_Z := inject_Z;
  num_add := Qplus;
  num_mul := Qmult;
  num_div := Qdiv;
  num_ltb := Qltb;
  num_leb := Qle_bool;
  num_eqb := Qeq_bool;
  Math_round := Q_round;
  Math_min := Qmin
|}.

(** *** Doubles *)

(** The double of an integer (exact below 2^53). *)
Definition Double_of_Z (z : Z) : float :=
  SF2Prim (binary_normalize prec emax z 0%Z false).

(** [Math.round] of ECMAScript: the integer closest to [x], the one
    towards +∞ of two that are equally close; [NaN], the infinities and
    the zeros are returned as they are, and a result that is zero has the
    sign of [x].  A finite double [±m·2^e] with [e >= 0] is an integer;
    otherwise the result is [floor (±m·2^e + 1/2)], computed on the
    integers. *)
Definition Double_round (x : float) : float :=
  match Prim2SF x with
  | S754_finite s m e =>
      if (0 <=? e)%Z then x
      else
        let n := if s then Z.neg m else Z.pos m in
        let k := ((2 * n + 2 ^ (- e)) / 2 ^ (1 - e))%Z in
        if (k =? 0)%Z then (if s then (-0)%float else 0%float)
        else Double_of_Z k
  | _ => x
  end.

(** [Math.min] of ECMAScript on two numbers: [NaN] if one of them is,
    and -0 is less than +0. *)
Definition Double_min (x y : float) : float :=
  if is_nan x || is_nan y then nan
  else if PrimFloat.ltb x y then x
  else if PrimFloat.ltb y x then y
  else if get_sign x then x else y.

Global Instance Double : Number float := {|
  num_of_Z := Double_of_Z;
  num_add := PrimFloat.add;
  num_mul := PrimFloat.mul;
  num_div := PrimFloat.div;
  num_ltb := PrimFloat.ltb;
  num_leb := PrimFloat.leb;
  num_eqb := PrimFloat.eqb;
  Math_round := Double_round;
  Math_min := Double_min
|}.

(** ** Nutrition entries *)

Module Nutrition.

(** The four values of [Food.nutritionPer100g] the handlers read, which are
    also the four fields of [NutritionEntry.dailyTotals]. *)
Record Macros {num : Type} : Type := mkMacros {
  calories : num;
  protein : num;
  carbohydrates : num;
  fat : num
}.
Arguments Macros : clear implicits.
Arguments mkMacros {num}.

Record Food {num : Type} : Type := mkFood {
  name : string;
  nutritionPer100g : Macros num
}.
Arguments Food : clear implicits.
Arguments mkFood {num}.

Inductive MealType : Type := breakfast | lunch | dinner | snack.

Inductive Unit : Type := g | ml | oz | cup | piece.

(** An element of [meal.foods].  The request gives [food], [quantity] and
    [unit]; nothing in the validation chain removes other properties, so a
    request may also carry the derived ones. *)
Record FoodItem {num : Type} : Type := mkFoodItem {
  food : string;
  quantity : num;
  unit : option Unit;
  item_calories : option num;
  item_protein : option num;
  item_carbohydrates : option num;
  item_fat : option num
}.
Arguments FoodItem : clear implicits.
Arguments mkFoodItem {num}.

Record Meal {num : Type} : Type := mkMeal {
  type : MealType;
  foods : list (FoodItem num);
  totalCalories : option num;
  notes : option string
}.
Arguments Meal : clear implicits.
Arguments mkMeal {num}.

Inductive WaterUnit : Type := water_ml | water_oz | water_cups.

Record WaterIntake {num : Type} : Type := mkWaterIntake {
  amount : num;
  water_unit : WaterUnit
}.
Arguments WaterIntake : clear implicits.
Arguments mkWaterIntake {num}.

Record NutritionEntry {num : Type} : Type := mkNutritionEntry {
  user : string;
  date : Z;
  meals : list (Meal num);
  dailyTotals : Macros num;
  waterIntake : WaterIntake num
}.
Arguments NutritionEntry : clear implicits.
Arguments mkNutritionEntry {num}.

(** The document store, as far as the two handlers touch it. *)
Record Store {num : Type} : Type := mkStore {
  Foods : gmap string (Food num);
  NutritionEntries : list (NutritionEntry num)
}.
Arguments Store : clear implicits.
Arguments mkStore {num}.

Inductive Response {num : Type} : Type :=
| Created (entry : NutritionEntry num)   (* 201 *)
| BadRequest (error : string)            (* 400 *)
| ServerError.                           (* 500 *)
Arguments Response : clear implicits.

Definition one_day : Z := (24 * 60 * 60 * 1000)%Z.

Section Totals.
Context {num : Type} {N : Number num}.
Local Open Scope num_scope.

Definition zeroTotals : Macros num := mkMacros 0 0 0 0.

(** [totals.calories += n.calories], and so on for the four fields. *)
Definition addTotals (t n : Macros num) : Macros num :=
  mkMacros (calories t + calories n) (protein t + protein n)
           (carbohydrates t + carbohydrates n) (fat t + fat n).

(** A derived field that is not set counts for nothing in a sum. *)
Definition derived (o : option num) : num := default 0 o.

Definition itemMacros (it : FoodItem num) : Macros num :=
  mkMacros (derived (item_calories it)) (derived (item_protein it))
           (derived (item_carbohydrates it)) (derived (item_fat it)).

(** The line items of all the meals, in order. *)
Definition allFoods (ms : list (Meal num)) : list (FoodItem num) :=
  concat (map foods ms).

(** The sum of one derived field over a list of line items, added in the
    order of the list. *)
Definition fieldSum (field : FoodItem num -> option num)
    (l : list (FoodItem num)) : num :=
  sumLeft (map (fun it => derived (field it)) l).

(** The derived fields of the stored item [it'] come from the food [f] and
    the request item [it], each from its own per-100g value times
    [quantity / 100]; [cal] is what is done to the product for the
    calories and [mac] for the three macros before it is stored. *)
Definition derivedBy (cal mac : num -> num) (f : Food num)
    (it it' : FoodItem num) : Prop :=
  food it' = food it /\ quantity it' = quantity it /\
  item_calories it'
  = Some (cal (calories (nutritionPer100g f) * (quantity it / 100))) /\
  item_protein it'
  = Some (mac (protein (nutritionPer100g f) * (quantity it / 100))) /\
  item_carbohydrates it'
  = Some (mac (carbohydrates (nutritionPer100g f) * (quantity it / 100))) /\
  item_fat it'
  = Some (mac (fat (nutritionPer100g f) * (quantity it / 100))).

(** A food id of the request that no Food record has. *)
Definition missingFood (db : gmap string (Food num)) (ms : list (Meal num))
    (id : string) : Prop :=
  exists meal it, meal ∈ ms /\ it ∈ foods meal /\ food it = id /\ db !! id = None.

(** The first food id of the request, in the order of its meals and
    items, that no Food record has. *)
Definition firstMissing (db : gmap string (Food num)) (ms : list (Meal num))
  : option string :=
  head (List.filter (fun id => bool_decide (db !! id = None))
                    (map food (allFoods ms))).

End Totals.

(** *** [POST /entries] (nutrition.js) *)

Module Entries.

Record Body {num : Type} : Type := mkBody {
  body_date : Z;
  body_meals : list (Meal num);
  body_waterIntake : option (WaterIntake num)
}.
Arguments Body : clear implicits.
Arguments mkBody {num}.

Definition notFound (id : string) : string :=
  ("Food with ID " ++ id ++ " not found")%string.

Section Handler.
Context {num : Type} {N : Number num}.
Local Open Scope num_scope.

(** [food.nutritionPer100g.* * multiplier], the object [nutrition]. *)
Definition nutritionOf (f : Food num) (foodItem : FoodItem num) : Macros num :=
  let multiplier := quantity foodItem / 100 in
  mkMacros (calories (nutritionPer100g f) * multiplier)
           (protein (nutritionPer100g f) * multiplier)
           (carbohydrates (nutritionPer100g f) * multiplier)
           (fat (nutritionPer100g f) * multiplier).

(** The object pushed on [processedFoods]:
    [{ food, quantity, unit, ...nutrition }]. *)
Definition processedFood (foodItem : FoodItem num) (nutrition : Macros num)
  : FoodItem num :=
  mkFoodItem (food foodItem) (quantity foodItem) (unit foodItem)
             (Some (calories nutrition)) (Some (protein nutrition))
             (Some (carbohydrates nutrition)) (Some (fat nutrition)).

(** The inner loop, [for (const foodItem of meal.foods)]: the accumulators
    are [processedFoods], [mealCalories] and [dailyTotals]; a food that is
    not found returns from the handler with the 400 answer. *)
Fixpoint foodsLoop (db : gmap string (Food num)) (items : list (FoodItem num))
    (processedFoods : list (FoodItem num)) (mealCalories : num)
    (totals : Macros num)
  : string + (list (FoodItem num) * num * Macros num) :=
  match items with
  | [] => inr (processedFoods, mealCalories, totals)
  | foodItem :: rest =>
      match db !! food foodItem with
      | None => inl (notFound (food foodItem))
      | Some f =>
          let nutrition := nutritionOf f foodItem in
          foodsLoop db rest (processedFoods ++ [processedFood foodItem nutrition])
                    (mealCalories + calories nutrition)
                    (addTotals totals nutrition)
      end
  end.

(** The outer loop, [for (const meal of meals)]. *)
Fixpoint mealsLoop (db : gmap string (Food num)) (ms : list (Meal num))
    (processedMeals : list (Meal num)) (totals : Macros num)
  : string + (list (Meal num) * Macros num) :=
  match ms with
  | [] => inr (processedMeals, totals)
  | meal :: rest =>
      match foodsLoop db (foods meal) [] 0 totals with
      | inl e => inl e
      | inr (processedFoods, mealCalories, totals') =>
          mealsLoop db rest
            (processedMeals ++
               [mkMeal (type meal) processedFoods (Some mealCalories) (notes meal)])
            totals'
      end
  end.

(** The filter of [NutritionEntry.findOne]: same user, date within the
    24 hours that start at [entryDate]. *)
Definition sameDay (u : string) (entryDate : Z) (e : NutritionEntry num) : bool :=
  bool_decide (user e = u) && (entryDate <=? date e)%Z
  && (date e <? entryDate + one_day)%Z.

Fixpoint findOne (p : NutritionEntry num -> bool) (l : list (NutritionEntry num))
  : option (nat * NutritionEntry num) :=
  match l with
  | [] => None
  | e :: rest =>
      if p e then Some (O, e)
      else match findOne p rest with
           | Some (i, x) => Some (S i, x)
           | None => None
           end
  end.

(** The handler.  [valid] is the validation that [entry.save()] runs. *)
Definition postEntries (valid : NutritionEntry num -> bool) (u : string)
    (body : Body num) (st : Store num) : Store num * Response num :=
  let entryDate := body_date body in
  match mealsLoop (Foods st) (body_meals body) [] zeroTotals with
  | inl e => (st, BadRequest e)
  | inr (processedMeals, totals) =>
      match findOne (sameDay u entryDate) (NutritionEntries st) with
      | Some (i, existingEntry) =>
          let entry :=
            mkNutritionEntry (user existingEntry) (date existingEntry)
              processedMeals totals
              (match body_waterIntake body with
               | Some w => w
               | None => waterIntake existingEntry
               end) in
          if valid entry
          then (mkStore (Foods st) (<[i := entry]> (NutritionEntries st)),
                Created entry)
          else (st, ServerError)
      | None =>
          let entry :=
            mkNutritionEntry u entryDate processedMeals totals
              (match body_waterIntake body with
               | Some w => w
               | None => mkWaterIntake 0 water_ml
               end) in
          if valid entry
          then (mkStore (Foods st) (NutritionEntries st ++ [entry]),
                Created entry)
          else (st, ServerError)
      end
  end.

(** What [processedFoods] gets for a request item. *)
Definition pushed (db : gmap string (Food num)) (it it' : FoodItem num) : Prop :=
  exists f, db !! food it = Some f /\ it' = processedFood it (nutritionOf f it).

(** What [processedMeals] gets for a request meal: [totalCalories] is
    the sum of the calories of its items. *)
Definition processed (db : gmap string (Food num)) (m m' : Meal num) : Prop :=
  type m' = type m /\ notes m' = notes m /\
  Forall2 (pushed db) (foods m) (foods m') /\
  totalCalories m' = Some (fieldSum item_calories (foods m')).

(** Some request with the meals [ms] is answered 201 with the entry [e]. *)
Definition writes (st : Store num) (ms : list (Meal num))
    (e : NutritionEntry num) : Prop :=
  exists valid u d w st',
    postEntries valid u (mkBody d ms w) st = (st', Created e).

End Handler.

End Entries.

(** *** [POST /nutrition-entries] (routes.js) *)

Module Monolith.

Record Body {num : Type} : Type := mkBody {
  body_date : option Z;
  body_meals : list (Meal num);
  body_waterIntake : option (WaterIntake num)
}.
Arguments Body : clear implicits.
Arguments mkBody {num}.

Section Handler.
Context {num : Type} {N : Number num}.
Local Open Scope num_scope.

(** The assignments to [foodEntry.calories], [.protein],
    [.carbohydrates] and [.fat]. *)
Definition setNutrition (f : Food num) (foodEntry : FoodItem num) : FoodItem num :=
  let multiplier := quantity foodEntry / 100 in
  mkFoodItem (food foodEntry) (quantity foodEntry) (unit foodEntry)
    (Some (Math_round (calories (nutritionPer100g f) * multiplier)))
    (Some (Math_round (protein (nutritionPer100g f) * multiplier * 10) / 10))
    (Some (Math_round (carbohydrates (nutritionPer100g f) * multiplier * 10) / 10))
    (Some (Math_round (fat (nutritionPer100g f) * multiplier * 10) / 10)).

(** The inner loop, [for (let foodEntry of meal.foods)]: the entries are
    updated in place, a food that is not found is passed over
    ([continue]) and stays as the request gave it. *)
Fixpoint foodsLoop (db : gmap string (Food num)) (items : list (FoodItem num))
    (mealTotals : Macros num) : list (FoodItem num) * Macros num :=
  match items with
  | [] => ([], mealTotals)
  | foodEntry :: rest =>
      match db !! food foodEntry with
      | None =>
          let '(rest', mealTotals') := foodsLoop db rest mealTotals in
          (foodEntry :: rest', mealTotals')
      | Some f =>
          let foodEntry' := setNutrition f foodEntry in
          let '(rest', mealTotals') :=
            foodsLoop db rest (addTotals mealTotals (itemMacros foodEntry')) in
          (foodEntry' :: rest', mealTotals')
      end
  end.

(** The outer loop, [for (let meal of entryData.meals)]. *)
Fixpoint mealsLoop (db : gmap string (Food num)) (ms : list (Meal num))
    (totals : Macros num) : list (Meal num) * Macros num :=
  match ms with
  | [] => ([], totals)
  | meal :: rest =>
      let '(foods', mealTotals) := foodsLoop db (foods meal) zeroTotals in
      let meal' :=
        mkMeal (type meal) foods' (Some (Math_round (calories mealTotals)))
               (notes meal) in
      let '(rest', totals') := mealsLoop db rest (addTotals totals mealTotals) in
      (meal' :: rest', totals')
  end.

(** The handler.  [now] is [new Date()], [valid] the validation that
    [entry.save()] runs. *)
Definition postNutritionEntries (now : Z) (valid : NutritionEntry num -> bool)
    (u : string) (body : Body num) (st : Store num)
  : Store num * Response num :=
  let '(meals', totals) := mealsLoop (Foods st) (body_meals body) zeroTotals in
  let entry :=
    mkNutritionEntry u (default now (body_date body)) meals'
      (mkMacros (Math_round (calories totals)) (round1 (protein totals))
                (round1 (carbohydrates totals)) (round1 (fat totals)))
      (default (mkWaterIntake 0 water_ml) (body_waterIntake body)) in
  if valid entry
  then (mkStore (Foods st) (NutritionEntries st ++ [entry]), Created entry)
  else (st, ServerError).

(** The food of an item is on record. *)
Definition resolves (db : gmap string (Food num)) (it : FoodItem num) : Prop :=
  is_Some (db !! food it).

Global Instance resolves_dec db it : Decision (resolves db it).
Proof. unfold resolves. apply _. Defined.

(** What the loop leaves in [meal.foods] for a request item. *)
Definition updated (db : gmap string (Food num)) (it it' : FoodItem num) : Prop :=
  match db !! food it with
  | Some f => it' = setNutrition f it
  | None => it' = it
  end.

(** The totals of a meal: its items whose food is on record, added in
    their order. *)
Definition mealTotalsOf (db : gmap string (Food num)) (m : Meal num)
  : Macros num :=
  foldl addTotals zeroTotals (map itemMacros (filter (resolves db) (foods m))).

(** What the loop leaves in [entryData.meals] for a request meal: the
    meal total counts the items whose food is on record. *)
Definition processed (db : gmap string (Food num)) (m m' : Meal num) : Prop :=
  type m' = type m /\ notes m' = notes m /\
  Forall2 (updated db) (foods m) (foods m') /\
  totalCalories m' = Some (Math_round (calories (mealTotalsOf db m'))).

(** [entryData.dailyTotals] from the sums. *)
Definition rounded (t : Macros num) : Macros num :=
  mkMacros (Math_round (calories t)) (round1 (protein t))
           (round1 (carbohydrates t)) (round1 (fat t)).

(** Some request with the meals [ms] is answered 201 with the entry [e]. *)
Definition writes (st : Store num) (ms : list (Meal num))
    (e : NutritionEntry num) : Prop :=
  exists t valid u d w st',
    postNutritionEntries t valid u (mkBody d ms w) st = (st', Created e).

End Handler.

End Monolith.

(** *** Ranges of the stored numbers, on the rationals *)

Local Open Scope Q_scope.

(** No value is negative. *)
Definition nonnegMacros (t : Macros Q) : Prop :=
  0 <= calories t /\ 0 <= protein t /\ 0 <= carbohydrates t /\ 0 <= fat t.

(** The foods on record have no negative per-100g value (the [min: 0] of
    the Food schema and of the validators of [POST /foods]). *)
Definition nonnegFoods (db : gmap string (Food Q)) : Prop :=
  forall id f, db !! id = Some f -> nonnegMacros (nutritionPer100g f).

(** No quantity of the request is negative. *)
Definition nonnegQuantities (ms : list (Meal Q)) : Prop :=
  forall meal it, meal ∈ ms -> it ∈ foods meal -> 0 <= quantity it.

(** The totals of an entry pass the [min: 0] of the NutritionEntry
    schema. *)
Definition nonnegTotals (e : NutritionEntry Q) : Prop :=
  nonnegMacros (dailyTotals e) /\
  Forall (fun m => exists tc, totalCalories m = Some tc /\ 0 <= tc) (meals e).

Local Close Scope Q_scope.

(** *** Sample data *)

Module Samples.

Section WithNumber.
Context {num : Type} {N : Number num}.
Local Open Scope num_scope.

(** The apple of API_DOCUMENTATION.md: 52 kcal, 0.3 g protein, 14 g
    carbohydrates and 0.2 g fat per 100 g; a decimal of a request or of a
    record is the number closest to it. *)
Definition apple : Food num :=
  mkFood "Apple"
    (mkMacros (num_of_Z 52) (num_of_Z 3 / 10) (num_of_Z 14) (num_of_Z 2 / 10)).

Definition pantry : Store num := mkStore (<["f1" := apple]> ∅) [].

(** An item of so many grams of apple. *)
Definition appleOf (grams : Z) : FoodItem num :=
  mkFoodItem "f1" (num_of_Z grams) (Some g) None None None None.

(** 150 g of apple. *)
Definition appleItem : FoodItem num := appleOf 150.

(** 100 g of a food that is not on record. *)
Definition ghostItem : FoodItem num :=
  mkFoodItem "f9" 100 (Some g) None None None None.

Definition appleBreakfast : list (Meal num) :=
  [mkMeal breakfast [appleItem] None None].

Definition mixedBreakfast : list (Meal num) :=
  [mkMeal breakfast [appleItem; ghostItem] None None].

(** 10 g of apple for breakfast, 20 g and 30 g for lunch. *)
Definition appleDay : list (Meal num) :=
  [mkMeal breakfast [appleOf 10] None None;
   mkMeal lunch [appleOf 20; appleOf 30] None None].

End WithNumber.

End Samples.

End Nutrition.

(** ** Goals *)

Module Goals.

Inductive Status : Type := active | paused | completed | cancelled.

Global Instance Status_eq_dec : EqDecision Status.
Proof. solve_decision. Defined.

(** The object that the progress route builds for
    [goal.progressHistory]. *)
Record ProgressEntry {num : Type} : Type := mkProgressEntry {
  date : Z;
  value : num;
  notes : string;
  previousValue : num
}.
Arguments ProgressEntry : clear implicits.
Arguments mkProgressEntry {num}.

(** A subdocument of [goal.milestones], with the paths that [goalSchema]
    declares for it: [title], [value], [achieved] and [achievedDate]. *)
Record Milestone {num : Type} : Type := mkMilestone {
  m_title : string;
  m_value : num;
  achieved : bool;
  achievedDate : option Z
}.
Arguments Milestone : clear implicits.
Arguments mkMilestone {num}.

(** A document of the model [Goal], with the paths of [goalSchema] that
    the routes read or write.  The creation route requires a
    [targetValue] and sets [currentValue], 0 when the body has none, so
    a stored goal has both. *)
Record Goal {num : Type} : Type := mkGoal {
  user : string;
  title : string;
  status : Status;
  targetValue : num;
  currentValue : num;
  milestones : list (Milestone num)
}.
Arguments Goal : clear implicits.
Arguments mkGoal {num}.

Record Notification : Type := mkNotification {
  n_user : string;
  n_title : string;
  n_message : string;
  n_type : string;
  relatedEntity_type : string;
  relatedEntity_id : string
}.

(** The two collections the routes touch: goals by [_id], and the
    notifications in the order of their creation. *)
Record Store {num : Type} : Type := mkStore {
  Goal_docs : gmap string (Goal num);
  Notifications : list Notification
}.
Arguments Store : clear implicits.
Arguments mkStore {num}.

(** What a request meets outside the store: the clock, the validation
    that [goal.save()] runs, and the validators of the Notification
    schema other than its enums. *)
Record Env {num : Type} : Type := mkEnv {
  now : Z;
  validGoal : Goal num -> bool;
  validNotification : Notification -> bool
}.
Arguments Env : clear implicits.
Arguments mkEnv {num}.

(** The validated body of a progress update: [value], optional [notes]
    and [date]. *)
Record Body {num : Type} : Type := mkBody {
  body_value : num;
  body_notes : option string;
  body_date : option Z
}.
Arguments Body : clear implicits.
Arguments mkBody {num}.

Inductive Response {num : Type} : Type :=
| Ok (goal : Goal num) (progressPercentage : num)
     (completedMilestones : list (Milestone num))
     (isGoalCompleted : bool)                                       (* 200 *)
| BadRequest          (* 400, 'Cannot update progress on inactive goal' *)
| NotFound            (* 404, 'Goal not found' *)
| ServerError.        (* 500, 'Failed to update progress' *)
Arguments Response : clear implicits.

(** The error kinds of the specification, as the route answers them. *)
Definition InvalidState {num : Type} (r : Response num) : Prop := r = BadRequest.

(** *** Properties that the schema does not declare

    The routes read [goal.progressHistory], [milestone.targetValue] and
    [milestone.isCompleted].  [goalSchema] declares none of them, so on
    a document each of them reads [undefined]. *)

Definition progressHistory {num : Type} (goal : Goal num)
  : option (list (ProgressEntry num)) := None.

Definition m_targetValue {num : Type} (milestone : Milestone num)
  : option num := None.

Definition m_isCompleted {num : Type} (milestone : Milestone num)
  : option bool := None.

(** [undefined] is falsy. *)
Definition truthy (o : option bool) : bool := default false o.

(** The [enum] validators of the Notification schema
    (models/schemas/Notification.js) on [type] and [relatedEntity.type]. *)
Definition notificationTypes : list string :=
  ["workout-reminder"; "meal-reminder"; "goal-achievement"; "milestone-reached";
   "new-follower"; "workout-shared"; "system-update"; "other"]%string.

Definition relatedEntityTypes : list string :=
  ["workout"; "goal"; "user"; "nutrition"]%string.

Definition notificationEnums (n : Notification) : bool :=
  bool_decide (n_type n ∈ notificationTypes)
  && bool_decide (relatedEntity_type n ∈ relatedEntityTypes).

Definition dquote : string := String "034"%char EmptyString.

(** *** Effects

    A computation that reads and writes the store and may throw. *)
Definition Async (num : Type) (A : Type) : Type :=
  Store num -> Store num * option A.

Global Instance Async_ret {num : Type} : MRet (Async num) :=
  fun A a st => (st, Some a).

Global Instance Async_bind {num : Type} : MBind (Async num) :=
  fun A B k c st =>
    match c st with
    | (st', Some a) => k a st'
    | (st', None) => (st', None)
    end.

Definition throw {num A : Type} : Async num A := fun st => (st, None).

(** [for (const x of l) await f(x)]. *)
Fixpoint forEach {num A : Type} (f : A -> Async num unit) (l : list A)
  : Async num unit :=
  match l with
  | [] => mret tt
  | x :: rest => f x ≫= fun _ => forEach f rest
  end.

Section Routes.
Context {num : Type} {N : Number num}.
Local Open Scope num_scope.

(** *** Helper functions of goals.js *)

Definition calculateGoalProgress (goal : Goal num) : num :=
  if targetValue goal =? 0 then 0
  else Math_min (currentValue goal / targetValue goal * 100) 100.

(** [x < y] and [x >= y] where [y] may be [undefined]: a comparison with
    [undefined] is false. *)
Definition lt_undefined (x : num) (y : option num) : bool :=
  match y with Some y => x <? y | None => false end.

Definition ge_undefined (x : num) (y : option num) : bool :=
  match y with Some y => x >=? y | None => false end.

(** The test of [checkMilestoneCompletion]. *)
Definition crossed (previousValue newValue : num) (milestone : Milestone num)
  : bool :=
  negb (truthy (m_isCompleted milestone))
  && lt_undefined previousValue (m_targetValue milestone)
  && ge_undefined newValue (m_targetValue milestone).

(** [checkMilestoneCompletion]: the milestones that pass the test are
    pushed on [completedMilestones], in their order.  The assignments to
    [isCompleted] and [completedAt] are to properties that the
    subdocument does not declare: its paths stay as they are. *)
Definition checkMilestoneCompletion (goal : Goal num)
    (previousValue newValue : num) : list (Milestone num) :=
  List.filter (crossed previousValue newValue) (milestones goal).

Definition checkGoalCompletion (goal : Goal num) : bool :=
  currentValue goal >=? targetValue goal.

(** [notification.save()]. *)
Definition saveNotification (env : Env num) (n : Notification)
  : Async num unit :=
  fun st =>
    if notificationEnums n && validNotification env n
    then (mkStore (Goal_docs st) (Notifications st ++ [n]), Some tt)
    else throw st.

(** [goal.save()], for the goal of id [id]. *)
Definition saveGoal (env : Env num) (id : string) (goal : Goal num)
  : Async num unit :=
  fun st =>
    if validGoal env goal
    then (mkStore (<[id := goal]> (Goal_docs st)) (Notifications st), Some tt)
    else throw st.

(** The document [handleGoalCompletion] builds. *)
Definition completionNotification (id : string) (goal : Goal num)
  : Notification :=
  mkNotification (user goal) "Goal Completed! 🎉"
    ("Congratulations! You've completed your goal: " ++ title goal)
    "achievement" "Goal" id.

Definition handleGoalCompletion (env : Env num) (id : string) (goal : Goal num)
  : Async num unit :=
  saveNotification env (completionNotification id goal).

(** The document [createMilestoneNotification] builds. *)
Definition milestoneNotification (id : string) (goal : Goal num)
    (milestone : Milestone num) : Notification :=
  mkNotification (user goal) "Milestone Achieved! 🌟"
    ("You've reached a milestone: " ++ m_title milestone ++ " for goal "
     ++ dquote ++ title goal ++ dquote)
    "milestone" "Goal" id.

Definition createMilestoneNotification (env : Env num) (id : string)
    (goal : Goal num) (milestone : Milestone num) : Async num unit :=
  saveNotification env (milestoneNotification id goal milestone).

(** [Goal.findOne({ _id: id, user: u })]. *)
Definition findOne (id u : string) (st : Store num) : option (Goal num) :=
  match Goal_docs st !! id with
  | Some goal => if bool_decide (user goal = u) then Some goal else None
  | None => None
  end.

Definition set_currentValue (goal : Goal num) (v : num) : Goal num :=
  mkGoal (user goal) (title goal) (status goal) (targetValue goal) v
         (milestones goal).

Definition set_status (goal : Goal num) (s : Status) : Goal num :=
  mkGoal (user goal) (title goal) s (targetValue goal) (currentValue goal)
         (milestones goal).

(** *** [POST /:id/progress] *)

(** [goal.progressHistory.push(progressEntry)]: the property reads
    [undefined], and the call throws a TypeError.  (On an array that is
    no path of the document the push would leave the paths as they
    are.) *)
Definition pushProgressEntry (goal : Goal num) (progressEntry : ProgressEntry num)
  : Async num unit :=
  match progressHistory goal with
  | None => throw
  | Some _ => mret tt
  end.

(** The statements of the route from the first assignment to the end of
    the [try] block, on the goal that was found and is active.  The
    assignment to [goal.completedAt] is to a property that the schema
    does not declare. *)
Definition progressBody (env : Env num) (id : string) (body : Body num)
    (goal0 : Goal num) : Async num (Response num) :=
  let previousValue := currentValue goal0 in
  let goal := set_currentValue goal0 (body_value body) in
  let progressEntry :=
    mkProgressEntry (default (now env) (body_date body)) (body_value body)
                    (default EmptyString (body_notes body)) previousValue in
  pushProgressEntry goal progressEntry ≫= fun _ =>
  let completedMilestones :=
    checkMilestoneCompletion goal previousValue (body_value body) in
  let isCompleted := checkGoalCompletion goal in
  goal ← (if isCompleted && bool_decide (status goal = active)
          then let goal := set_status goal completed in
               handleGoalCompletion env id goal ≫= fun _ => mret goal
          else mret goal);
  saveGoal env id goal ≫= fun _ =>
  forEach (createMilestoneNotification env id goal) completedMilestones ≫= fun _ =>
  mret (Ok goal (calculateGoalProgress goal) completedMilestones isCompleted).

(** The route, for the authenticated user [u]. *)
Definition postProgress (env : Env num) (u id : string) (body : Body num)
    (st : Store num) : Store num * Response num :=
  match findOne id u st with
  | None => (st, NotFound)
  | Some goal =>
      if bool_decide (status goal <> active) then (st, BadRequest)
      else match progressBody env id body goal st with
           | (st', Some r) => (st', r)
           | (st', None) => (st', ServerError)
           end
  end.

(** A sequence of progress requests on the goal [id], each with the
    environment it meets; the answers come in the order of the requests. *)
Fixpoint postProgressSeq (id : string) (calls : list (Env num * string * Body num))
    (st : Store num) : Store num * list (Response num) :=
  match calls with
  | [] => (st, [])
  | (env, u, body) :: rest =>
      let '(st1, r) := postProgress env u id body st in
      let '(st2, rs) := postProgressSeq id rest st1 in
      (st2, r :: rs)
  end.

(** The status of the goal [id] in the store. *)
Definition statusOf (id : string) (st : Store num) : option Status :=
  status <$> Goal_docs st !! id.

(** How often the requests of a sequence turn the status of the goal [id]
    into [completed]. *)
Fixpoint completions (id : string) (calls : list (Env num * string * Body num))
    (st : Store num) : nat :=
  match calls with
  | [] => O
  | (env, u, body) :: rest =>
      let st1 := fst (postProgress env u id body st) in
      (if bool_decide (statusOf id st <> Some completed
                       /\ statusOf id st1 = Some completed)
       then 1 else 0)%nat + completions id rest st1
  end.

(** *** [GET /:id] *)

(** One step of a stable sort with the comparator
    [(a, b) => new Date(b.date) - new Date(a.date)]: [e], which came
    before the entries of [l] in the array, goes after the entries that
    are strictly newer and before all the others. *)
Fixpoint insertByDate (e : ProgressEntry num) (l : list (ProgressEntry num))
  : list (ProgressEntry num) :=
  match l with
  | [] => [e]
  | x :: rest =>
      if (date e <? date x)%Z then x :: insertByDate e rest else e :: l
  end.

(** [Array.prototype.sort] with that comparator. *)
Definition sortNewestFirst (l : list (ProgressEntry num))
  : list (ProgressEntry num) :=
  foldr insertByDate [] l.

(** [getRecentProgressForGoal]:
    [goal.progressHistory.sort(...).slice(0, 10)]; [None] when the call
    throws, as the sort of [undefined] does. *)
Definition getRecentProgressForGoal (goal : Goal num)
  : option (list (ProgressEntry num)) :=
  match progressHistory goal with
  | None => None
  | Some h => Some (take 10 (sortNewestFirst h))
  end.

Inductive GetResponse : Type :=
| Found (goal : Goal num) (progressPercentage : num)
        (recentProgress : list (ProgressEntry num))    (* 200 *)
| GetNotFound                                          (* 404 *)
| GetServerError.                                      (* 500 *)

(** The route, for the authenticated user [u]; nothing is saved. *)
Definition getGoal (u id : string) (st : Store num) : GetResponse :=
  match findOne id u st with
  | None => GetNotFound
  | Some goal =>
      let progressPercentage := calculateGoalProgress goal in
      match getRecentProgressForGoal goal with
      | Some recentProgress => Found goal progressPercentage recentProgress
      | None => GetServerError
      end
  end.

(** *** [PUT /:id] *)

(** The keys of a body of [PUT /:id] that are paths of [Goal] as it is
    modelled here; every key of the body that is not [undefined] is
    assigned.  A key that [goalSchema] does not declare leaves the paths
    of the document as they are.  A body that carries [_id] is outside
    this model. *)
Record Update : Type := mkUpdate {
  upd_user : option string;
  upd_title : option string;
  upd_status : option Status;
  upd_targetValue : option num;
  upd_currentValue : option num;
  upd_milestones : option (list (Milestone num))
}.

(** [Object.keys(req.body).forEach(key => { goal[key] = req.body[key] })]. *)
Definition assign (goal : Goal num) (body : Update) : Goal num :=
  mkGoal (default (user goal) (upd_user body))
         (default (title goal) (upd_title body))
         (default (status goal) (upd_status body))
         (default (targetValue goal) (upd_targetValue body))
         (default (currentValue goal) (upd_currentValue body))
         (default (milestones goal) (upd_milestones body)).

Inductive PutResponse : Type :=
| Updated (goal : Goal num)    (* 200 *)
| PutNotFound                  (* 404 *)
| PutServerError.              (* 500 *)

(** The route: assign, save, and then the test
    [req.body.status === 'completed' && goal.status !== 'completed'] on
    the goal that was just assigned to. *)
Definition putGoal (env : Env num) (u id : string) (body : Update)
    (st : Store num) : Store num * PutResponse :=
  match findOne id u st with
  | None => (st, PutNotFound)
  | Some goal0 =>
      let goal := assign goal0 body in
      match (saveGoal env id goal ≫= fun _ =>
             (if bool_decide (upd_status body = Some completed)
                 && bool_decide (status goal <> completed)
              then handleGoalCompletion env id goal
              else mret tt) ≫= fun _ =>
             mret (Updated goal)) st with
      | (st', Some r) => (st', r)
      | (st', None) => (st', PutServerError)
      end
  end.

(** The body of a [PUT /:id] that names the status alone. *)
Definition statusOnly (s : Status) : Update :=
  mkUpdate None None (Some s) None None None.

(** *** [DELETE /:id] *)

Inductive DeleteResponse : Type :=
| Deleted                      (* 200 *)
| DeleteNotFound.              (* 404 *)

(** The route: [Goal.findOneAndDelete({ _id: id, user: u })]. *)
Definition deleteGoal (u id : string) (st : Store num)
  : Store num * DeleteResponse :=
  match findOne id u st with
  | None => (st, DeleteNotFound)
  | Some _ => (mkStore (delete id (Goal_docs st)) (Notifications st), Deleted)
  end.

End Routes.

Arguments GetResponse : clear implicits.
Arguments Update : clear implicits.
Arguments PutResponse : clear implicits.

(** *** Sample data *)

Module Samples.

Section WithNumber.
Context {num : Type} {N : Number num}.
Local Open Scope num_scope.

Definition quarter : Milestone num :=
  mkMilestone "Quarter" (num_of_Z 25) false None.
Definition half : Milestone num :=
  mkMilestone "Half way" (num_of_Z 50) false None.

(** A goal of target 100 that starts at 0, with milestones at 25 and 50. *)
Definition run100 : Goal num :=
  mkGoal "u1" "Run 100 km" active 100 0 [quarter; half].

(** A goal whose current value is already its target. *)
Definition reached : Goal num := mkGoal "u1" "Hold 100" active 100 100 [].

(** A paused goal. *)
Definition resting : Goal num :=
  mkGoal "u1" "Swim" paused (num_of_Z 40) 10
         [mkMilestone "Twenty" (num_of_Z 20) false None].

Definition store1 : Store num := mkStore (<["g1" := run100]> ∅) [].
Definition store2 : Store num := mkStore (<["g2" := reached]> ∅) [].
Definition store3 : Store num := mkStore (<["g3" := resting]> ∅) [].

(** Every document passes the validators that are parameters; the clock
    reads 7. *)
Definition lenient : Env num := mkEnv 7 (fun _ => true) (fun _ => true).

(** A progress update with a value and nothing else. *)
Definition update (v : Z) : Body num := mkBody (num_of_Z v) None None.

End WithNumber.

End Samples.

End Goals.

(** * Properties *)

(** ** Lists *)

Lemma head_app {A : Type} (l1 l2 : list A) :
  head (l1 ++ l2) = match head l1 with Some x => Some x | None => head l2 end.
Proof. destruct l1; reflexivity. Qed.

Lemma head_filter_Some {A : Type} (p : A -> bool) (l : list A) (x : A) :
  head (List.filter p l) = Some x -> x ∈ l /\ p x = true.
Proof.
  induction l as [|y l IH]; simpl; [discriminate|].
  destruct (p y) eqn:E.
  - intros [= ->]. split; [apply list_elem_of_here | exact E].
  - intros H. apply IH in H as [H1 H2].
    split; [now apply list_elem_of_further | exact H2].
Qed.

Lemma head_filter_None {A : Type} (p : A -> bool) (l : list A) (x : A) :
  head (List.filter p l) = None -> x ∈ l -> p x = false.
Proof.
  induction l as [|y l IH]; intros H Hx; [inversion Hx|]. simpl in H.
  destruct (p y) eqn:E; [discriminate|].
  apply elem_of_cons in Hx as [->|Hx]; [exact E | now apply IH].
Qed.

(** ** Nutrition entries *)

Module NutritionProofs.
Import Nutrition.

Section Sums.
Context {num : Type} {N : Number num}.
Local Open Scope num_scope.

Lemma allFoods_cons (m : Meal num) (l : list (Meal num)) :
  allFoods (m :: l) = foods m ++ allFoods l.
Proof. reflexivity. Qed.

Lemma allFoods_elem (ms : list (Meal num)) (it : FoodItem num) :
  it ∈ allFoods ms <-> exists m, m ∈ ms /\ it ∈ foods m.
Proof.
  induction ms as [|m ms IH].
  - split; [intros H; inversion H | intros (m & H & _); inversion H].
  - rewrite allFoods_cons, elem_of_app, IH. split.
    + intros [H|(m' & Hm & Hit)].
      * exists m. split; [apply list_elem_of_here | exact H].
      * exists m'. split; [now apply list_elem_of_further | exact Hit].
    + intros (m' & Hm & Hit). apply elem_of_cons in Hm as [->|Hm]; eauto.
Qed.

(** Each field of a sum of totals is the sum of that field. *)
Lemma foldl_addTotals (t : Macros num) (l : list (Macros num)) :
  foldl addTotals t l
  = mkMacros (foldl num_add (calories t) (map calories l))
             (foldl num_add (protein t) (map protein l))
             (foldl num_add (carbohydrates t) (map carbohydrates l))
             (foldl num_add (fat t) (map fat l)).
Proof.
  revert t. induction l as [|x l IH]; intros t; [now destruct t|].
  simpl. now rewrite IH.
Qed.

Lemma totals_fields (l : list (FoodItem num)) :
  foldl addTotals zeroTotals (map itemMacros l)
  = mkMacros (fieldSum item_calories l) (fieldSum item_protein l)
             (fieldSum item_carbohydrates l) (fieldSum item_fat l).
Proof.
  rewrite foldl_addTotals. unfold fieldSum, sumLeft.
  now rewrite !map_map.
Qed.

(** Some id is missing exactly when there is a first one. *)
Lemma firstMissing_Some db (ms : list (Meal num)) id :
  firstMissing db ms = Some id -> missingFood db ms id.
Proof.
  unfold firstMissing. intros H. apply head_filter_Some in H as [Hin Hp].
  apply bool_decide_eq_true in Hp.
  apply list_elem_of_fmap in Hin as (it & -> & Hit).
  apply allFoods_elem in Hit as (m & Hm & Hit).
  now exists m, it.
Qed.

Lemma firstMissing_None db (ms : list (Meal num)) id :
  firstMissing db ms = None -> ~ missingFood db ms id.
Proof.
  unfold firstMissing. intros H (m & it & Hm & Hit & <- & Hn).
  assert (food it ∈ map food (allFoods ms)) as Hin.
  { apply list_elem_of_fmap. exists it. split; [reflexivity|].
    apply allFoods_elem. eauto. }
  apply (head_filter_None _ _ _ H) in Hin.
  apply bool_decide_eq_false in Hin. contradiction.
Qed.

Lemma missingFood_first db (ms : list (Meal num)) id :
  missingFood db ms id ->
  exists id', firstMissing db ms = Some id' /\ db !! id' = None.
Proof.
  intros Hm. destruct (firstMissing db ms) as [id'|] eqn:E.
  - exists id'. split; [reflexivity|].
    apply firstMissing_Some in E as (m & it & _ & _ & Hid & Hn). exact Hn.
  - now apply (firstMissing_None _ _ id) in E.
Qed.

End Sums.

Module EntriesProofs.
Import Nutrition.Entries.

Section Loops.
Context {num : Type} {N : Number num}.
Context (db : gmap string (Food num)).
Local Open Scope num_scope.

(** [findOne] gives the first entry that passes the filter, with its
    place in the collection. *)
Lemma entry_findOne_Some (p : NutritionEntry num -> bool) l i x :
  findOne p l = Some (i, x) -> l !! i = Some x /\ p x = true.
Proof.
  revert i. induction l as [|e l IH]; intros i H; simpl in H; [discriminate|].
  destruct (p e) eqn:Ep.
  - injection H as <- <-. auto.
  - destruct (findOne p l) as [[j y]|]; [|discriminate].
    injection H as <- <-. apply IH. reflexivity.
Qed.

(** What is pushed for an item depends on the item and the foods alone. *)
Lemma pushed_fun (it a b : FoodItem num) : pushed db it a -> pushed db it b -> a = b.
Proof. intros (f & Hf & ->) (f' & Hf' & ->). congruence. Qed.

Lemma pushed_all_fun (items a b : list (FoodItem num)) :
  Forall2 (pushed db) items a -> Forall2 (pushed db) items b -> a = b.
Proof.
  intros Ha. revert b. induction Ha as [|it x items a Hx _ IH]; intros b Hb;
    inversion Hb as [|? y ? b' Hy Hb']; subst; [reflexivity|].
  f_equal; [eapply pushed_fun; eauto | now apply IH].
Qed.

(** The inner loop when every food is found: what is pushed, and what the
    accumulators hold. *)
Lemma entries_foodsLoop_inr items pf mc t pf' mc' t' :
  foodsLoop db items pf mc t = inr (pf', mc', t') ->
  exists new,
    pf' = pf ++ new /\ Forall2 (pushed db) items new /\
    mc' = foldl num_add mc (map (fun it => derived (item_calories it)) new) /\
    t' = foldl addTotals t (map itemMacros new).
Proof.
  revert pf mc t. induction items as [|it items IH]; intros pf mc t H; simpl in H.
  - injection H as <- <- <-. exists []. rewrite app_nil_r.
    repeat split; constructor.
  - destruct (db !! food it) as [f|] eqn:Ef; [|discriminate].
    apply IH in H as (new & -> & HF & -> & ->).
    exists (processedFood it (nutritionOf f it) :: new).
    rewrite <- app_assoc. split; [reflexivity|].
    split; [constructor; [exists f; auto | exact HF]|].
    split; reflexivity.
Qed.

(** The inner loop stops at the first food that is not found. *)
Lemma entries_foodsLoop_first items pf mc t :
  match head (List.filter (fun id => bool_decide (db !! id = None))
                          (map food items)) with
  | Some id => foodsLoop db items pf mc t = inl (notFound id)
  | None => exists r, foodsLoop db items pf mc t = inr r
  end.
Proof.
  revert pf mc t. induction items as [|it items IH]; intros pf mc t; simpl.
  - eauto.
  - destruct (db !! food it) as [f|] eqn:Ef.
    + rewrite bool_decide_eq_false_2 by congruence. apply IH.
    + rewrite bool_decide_eq_true_2 by reflexivity. reflexivity.
Qed.

Lemma entries_mealsLoop_inr ms pm t pm' t' :
  mealsLoop db ms pm t = inr (pm', t') ->
  exists new,
    pm' = pm ++ new /\ Forall2 (processed db) ms new /\
    t' = foldl addTotals t (map itemMacros (allFoods new)).
Proof.
  revert pm t. induction ms as [|m ms IH]; intros pm t H; simpl in H.
  - injection H as <- <-. exists []. rewrite app_nil_r.
    split; [reflexivity|]. split; constructor.
  - destruct (foodsLoop db (foods m) [] 0 t) as [e|[[pf mc] t1]] eqn:Ef;
      [discriminate|].
    apply entries_foodsLoop_inr in Ef as (new & -> & HF & -> & ->).
    apply IH in H as (news & -> & HFs & ->).
    exists (mkMeal (type m) new
              (Some (foldl num_add 0 (map (fun it => derived (item_calories it)) new)))
              (notes m) :: news).
    rewrite <- app_assoc. split; [reflexivity|].
    split.
    + constructor; [|exact HFs]. repeat split; simpl; auto.
    + rewrite allFoods_cons. simpl. now rewrite map_app, foldl_app.
Qed.

(** The outer loop stops at the first food of the request that is not
    found. *)
Lemma entries_mealsLoop_first ms pm t :
  match firstMissing db ms with
  | Some id => mealsLoop db ms pm t = inl (notFound id)
  | None => exists r, mealsLoop db ms pm t = inr r
  end.
Proof.
  unfold firstMissing.
  revert pm t. induction ms as [|m ms IH]; intros pm t; simpl.
  - eauto.
  - rewrite allFoods_cons, map_app, List.filter_app, head_app.
    pose proof (entries_foodsLoop_first (foods m) [] 0 t) as Hf.
    destruct (head (List.filter _ (map food (foods m)))) as [id|].
    + now rewrite Hf.
    + destruct Hf as [[[pf mc] t1] ->]. apply IH.
Qed.

End Loops.

Section Handler.
Context {num : Type} {N : Number num}.

(** The entry that a successful [POST /entries] answers with. *)
Lemma postEntries_created valid u (body : Body num) st st' e :
  postEntries valid u body st = (st', Created e) ->
  Forall2 (processed (Foods st)) (body_meals body) (meals e) /\
  dailyTotals e = foldl addTotals zeroTotals (map itemMacros (allFoods (meals e))) /\
  Foods st' = Foods st /\ e ∈ NutritionEntries st'.
Proof.
  unfold postEntries. intros H.
  destruct (mealsLoop (Foods st) (body_meals body) [] zeroTotals)
    as [err|[pm t]] eqn:Em; [inversion H|].
  apply entries_mealsLoop_inr in Em as (new & -> & HF & ->). simpl in *.
  destruct (findOne _ _) as [[i ex]|] eqn:Efind.
  - destruct (valid _); inversion H; subst; clear H. simpl.
    repeat split; auto.
    apply entry_findOne_Some in Efind as [Hi _].
    apply list_elem_of_lookup. exists i.
    apply list_lookup_insert_eq. now apply lookup_lt_Some in Hi.
  - destruct (valid _); inversion H; subst; clear H. simpl.
    repeat split; auto.
    apply elem_of_app. right. apply list_elem_of_here.
Qed.

(** The items of the entry are the items of the request, item by item. *)
Lemma entries_allFoods_pushed db (ms ms' : list (Meal num)) :
  Forall2 (processed db) ms ms' ->
  Forall2 (pushed db) (allFoods ms) (allFoods ms').
Proof.
  induction 1 as [|m m' ms ms' (_ & _ & HF & _) _ IH]; [constructor|].
  rewrite !allFoods_cons. now apply Forall2_app.
Qed.

(** The answer when a food is missing. *)
Lemma postEntries_first valid u (body : Body num) st id :
  firstMissing (Foods st) (body_meals body) = Some id ->
  postEntries valid u body st = (st, BadRequest (notFound id)).
Proof.
  intros H. unfold postEntries.
  pose proof (entries_mealsLoop_first (Foods st) (body_meals body) [] zeroTotals)
    as Hl.
  rewrite H in Hl. now rewrite Hl.
Qed.

End Handler.

End EntriesProofs.

Module MonolithProofs.
Import Nutrition.Monolith.

Section Loops.
Context {num : Type} {N : Number num}.
Context (db : gmap string (Food num)).

Lemma updated_food (it it' : FoodItem num) : updated db it it' -> food it' = food it.
Proof. unfold updated. destruct (db !! food it); intros ->; reflexivity. Qed.

(** The inner loop: the items it leaves, and the meal totals, which count
    the items whose food is on record. *)
Lemma monolith_foodsLoop_spec items mt items' mt' :
  foodsLoop db items mt = (items', mt') ->
  Forall2 (updated db) items items' /\
  mt' = foldl addTotals mt (map itemMacros (filter (resolves db) items')).
Proof.
  revert mt items' mt'.
  induction items as [|it items IH]; intros mt items' mt' H; simpl in H.
  - injection H as <- <-. split; [constructor | reflexivity].
  - destruct (db !! food it) as [f|] eqn:Ef.
    + destruct (foodsLoop db items _) as [rest' mt1] eqn:El.
      injection H as <- <-. apply IH in El as (HF & ->).
      split; [constructor; [unfold updated; now rewrite Ef | exact HF]|].
      rewrite filter_cons_True by (unfold resolves; simpl; rewrite Ef; eauto).
      reflexivity.
    + destruct (foodsLoop db items mt) as [rest' mt1] eqn:El.
      injection H as <- <-. apply IH in El as (HF & ->).
      split; [constructor; [unfold updated; now rewrite Ef | exact HF]|].
      rewrite filter_cons_False
        by (unfold resolves; rewrite Ef; intros [? ?]; discriminate).
      reflexivity.
Qed.

Lemma monolith_mealsLoop_spec ms t ms' t' :
  mealsLoop db ms t = (ms', t') ->
  Forall2 (processed db) ms ms' /\
  t' = foldl addTotals t (map (mealTotalsOf db) ms').
Proof.
  revert t ms' t'.
  induction ms as [|m ms IH]; intros t ms' t' H; simpl in H.
  - injection H as <- <-. split; [constructor | reflexivity].
  - destruct (foodsLoop db (foods m) zeroTotals) as [foods' mt] eqn:Ef.
    destruct (mealsLoop db ms _) as [rest' t1] eqn:El.
    injection H as <- <-.
    apply monolith_foodsLoop_spec in Ef as (HF & ->).
    apply IH in El as (HFs & ->).
    split; [|reflexivity].
    constructor; [|exact HFs]. repeat split; simpl; auto.
Qed.

End Loops.

Section Handler.
Context {num : Type} {N : Number num}.

(** The entry that a successful [POST /nutrition-entries] stores and
    answers with: every total is a sum over the items whose food is on
    record. *)
Lemma postNutritionEntries_created t valid u (body : Body num) st st' e :
  postNutritionEntries t valid u body st = (st', Created e) ->
  Forall2 (processed (Foods st)) (body_meals body) (meals e) /\
  dailyTotals e
  = rounded (foldl addTotals zeroTotals (map (mealTotalsOf (Foods st)) (meals e))) /\
  st' = mkStore (Foods st) (NutritionEntries st ++ [e]).
Proof.
  unfold postNutritionEntries. intros H.
  destruct (mealsLoop (Foods st) (body_meals body) zeroTotals) as [ms' tot] eqn:Em.
  apply monolith_mealsLoop_spec in Em as (HF & ->).
  destruct (valid _); inversion H; subst; clear H. simpl.
  split; [exact HF|]. split; reflexivity.
Qed.

End Handler.

End MonolithProofs.

(** *** The claims on the nutrition-entry write *)

Import EntriesProofs MonolithProofs Samples.

Section Claims.
Context {num : Type} {N : Number num}.
Local Open Scope num_scope.

(** On [POST /entries], a food id that is not on record is answered 400
    with that id in the message, and the store stays as it is. *)
Lemma postEntries_missing_food valid u (body : Entries.Body num) st id :
  missingFood (Foods st) (Entries.body_meals body) id ->
  exists id', missingFood (Foods st) (Entries.body_meals body) id' /\
              Entries.postEntries valid u body st
              = (st, BadRequest (Entries.notFound id')).
Proof.
  intros Hm. apply missingFood_first in Hm as (id' & Hf & _).
  exists id'. split; [now apply firstMissing_Some|].
  now apply postEntries_first.
Qed.

(** C3.  On [POST /entries], the route of nutrition entries that the
    server mounts, a request with a food id that is not on record is
    refused whatever else it holds: the answer is 400 with the first such
    id of the request in its message, and the store is left as it was, so
    no entry is created or overwritten and no total is written. *)
Theorem missing_food_rejected valid u (body : Entries.Body num) st id0 :
  missingFood (Foods st) (Entries.body_meals body) id0 ->
  exists id,
    firstMissing (Foods st) (Entries.body_meals body) = Some id /\
    Foods st !! id = None /\
    Entries.postEntries valid u body st = (st, BadRequest (Entries.notFound id)).
Proof.
  intros Hm. apply missingFood_first in Hm as (id & Hf & Hn).
  exists id. split; [exact Hf|]. split; [exact Hn|].
  now apply postEntries_first.
Qed.

(** C1, as amended.  For every line item of a successful write whose food
    is on record, the stored item keeps the food and the quantity of the
    request, and each of its four derived fields comes from the food's own
    per-100g value times [quantity / 100], independently of the other
    three.  [POST /entries] stores the four products as they are;
    [POST /nutrition-entries] stores [Math.round] of the product for the
    calories and [Math.round(product * 10) / 10] for protein,
    carbohydrates and fat. *)
Theorem derived_fields (st : Store num) ms e i j meal it f :
  ms !! i = Some meal -> foods meal !! j = Some it ->
  Foods st !! food it = Some f ->
  (Entries.writes st ms e ->
   exists meal' it',
     meals e !! i = Some meal' /\ foods meal' !! j = Some it' /\
     derivedBy (fun x => x) (fun x => x) f it it') /\
  (Monolith.writes st ms e ->
   exists meal' it',
     meals e !! i = Some meal' /\ foods meal' !! j = Some it' /\
     derivedBy Math_round round1 f it it').
Proof.
  intros Hi Hj Hf. split.
  - intros (valid & u & d & w & st' & H).
    apply postEntries_created in H as (HF & _). simpl in HF.
    destruct (Forall2_lookup_l _ _ _ _ _ HF Hi) as (meal' & Hi' & _ & _ & HFf & _).
    destruct (Forall2_lookup_l _ _ _ _ _ HFf Hj) as (it' & Hj' & f' & Hf' & ->).
    rewrite Hf in Hf'. injection Hf' as <-.
    exists meal', (Entries.processedFood it (Entries.nutritionOf f it)).
    split; [exact Hi'|]. split; [exact Hj'|]. repeat split.
  - intros (t & valid & u & d & w & st' & H).
    apply postNutritionEntries_created in H as (HF & _). simpl in HF.
    destruct (Forall2_lookup_l _ _ _ _ _ HF Hi) as (meal' & Hi' & _ & _ & HFf & _).
    destruct (Forall2_lookup_l _ _ _ _ _ HFf Hj) as (it' & Hj' & Hup).
    unfold Monolith.updated in Hup. rewrite Hf in Hup. subst it'.
    exists meal', (Monolith.setNutrition f it).
    split; [exact Hi'|]. split; [exact Hj'|]. repeat split.
Qed.

(** C6, as amended.  The totals of the entry that a successful
    [POST /entries] stores are sums in the order of the request: every
    meal's [totalCalories] is the sum of the calories of its items, and
    every field of [dailyTotals] is the sum of that field over all the
    items of all the meals, one after the other.  So the daily totals are
    the same however the same items are grouped into meals. *)
Theorem totals_add_up valid u (body : Entries.Body num) st st' e :
  Entries.postEntries valid u body st = (st', Created e) ->
  Forall (fun m => totalCalories m = Some (fieldSum item_calories (foods m)))
         (meals e) /\
  dailyTotals e
  = mkMacros (fieldSum item_calories (allFoods (meals e)))
             (fieldSum item_protein (allFoods (meals e)))
             (fieldSum item_carbohydrates (allFoods (meals e)))
             (fieldSum item_fat (allFoods (meals e))) /\
  forall valid2 u2 body2 st2 e2,
    Entries.postEntries valid2 u2 body2 st = (st2, Created e2) ->
    allFoods (Entries.body_meals body2) = allFoods (Entries.body_meals body) ->
    allFoods (meals e2) = allFoods (meals e) /\ dailyTotals e2 = dailyTotals e.
Proof.
  intros H. apply postEntries_created in H as (HF & Ht & _).
  split; [|split].
  - clear Ht. induction HF as [|m m' l l' (_ & _ & _ & Hc) _ IH];
      constructor; assumption.
  - rewrite Ht. apply totals_fields.
  - intros valid2 u2 body2 st2 e2 H2 Hsame.
    apply postEntries_created in H2 as (HF2 & Ht2 & _).
    apply entries_allFoods_pushed in HF, HF2. rewrite Hsame in HF2.
    pose proof (pushed_all_fun _ _ _ _ HF2 HF) as Heq.
    split; [exact Heq|]. now rewrite Ht, Ht2, Heq.
Qed.

End Claims.

(** A breakfast of apple and of a food that is not on record. *)
Lemma mixedBreakfast_missing :
  missingFood (num := float) (Foods pantry) mixedBreakfast "f9".
Proof.
  exists (mkMeal breakfast [appleItem; ghostItem] None None), ghostItem.
  split; [apply list_elem_of_here|].
  split; [apply list_elem_of_further, list_elem_of_here|].
  split; reflexivity.
Qed.

Lemma postEntries_missing_food_witness :
  exists id',
    missingFood (num := float) (Foods pantry) mixedBreakfast id' /\
    Entries.postEntries (fun _ => true) "u1"
      (Entries.mkBody 0 mixedBreakfast None) pantry
    = (pantry, BadRequest (Entries.notFound id')).
Proof.
  apply (postEntries_missing_food (fun _ => true) "u1"
           (Entries.mkBody 0 mixedBreakfast None) pantry "f9").
  exact mixedBreakfast_missing.
Defined.

Lemma missing_food_rejected_witness :
  missingFood (num := float) (Foods pantry) mixedBreakfast "f9" /\
  Entries.postEntries (num := float) (fun _ => true) "u1"
    (Entries.mkBody 0 mixedBreakfast None) pantry
  = (pantry, BadRequest "Food with ID f9 not found").
Proof.
  split; [exact mixedBreakfast_missing|].
  destruct (missing_food_rejected (fun _ => true) "u1"
              (Entries.mkBody (num := float) 0 mixedBreakfast None) pantry "f9"
              mixedBreakfast_missing) as (id & Hf & _ & H).
  assert (Some id = Some "f9"%string) as Hid
    by (rewrite <- Hf; vm_compute; reflexivity).
  assert (id = "f9"%string) as -> by congruence. exact H.
Defined.

Lemma entries_writes_apple :
  exists e, Entries.writes (num := float) pantry appleBreakfast e.
Proof.
  eexists. exists (fun _ => true), "u1"%string, 0%Z, None. eexists.
  vm_compute. reflexivity.
Defined.

Lemma monolith_writes_apple :
  exists e, Monolith.writes (num := float) pantry appleBreakfast e.
Proof.
  eexists. exists 0%Z, (fun _ => true), "u1"%string, None, None. eexists.
  vm_compute. reflexivity.
Defined.

(** 150 g of apple, through either route, in doubles. *)
Lemma derived_fields_witness :
  exists e e',
    Entries.writes (num := float) pantry appleBreakfast e /\
    Monolith.writes (num := float) pantry appleBreakfast e' /\
    (exists meal' it',
       meals e !! O = Some meal' /\ foods meal' !! O = Some it' /\
       derivedBy (fun x => x) (fun x => x) apple appleItem it') /\
    (exists meal' it',
       meals e' !! O = Some meal' /\ foods meal' !! O = Some it' /\
       derivedBy Math_round round1 apple appleItem it').
Proof.
  destruct entries_writes_apple as [e He].
  destruct monolith_writes_apple as [e' He'].
  exists e, e'. split; [exact He|]. split; [exact He'|]. split.
  - exact (proj1 (derived_fields pantry appleBreakfast e O O _ appleItem apple
                    eq_refl eq_refl eq_refl) He).
  - exact (proj2 (derived_fields pantry appleBreakfast e' O O _ appleItem apple
                    eq_refl eq_refl eq_refl) He').
Defined.

(** Products and roundings in doubles: 25 kcal and 58 g give
    14.499999999999998, which [Math.round] takes to 14; 0.3 g and 450 g
    give 1.3 after the rounding to one decimal; 0.3 g and 150 g give
    0.44999999999999996, less than 0.45. *)
Lemma double_products :
  Math_round (25 * (58 / 100))%float = 14%float /\
  round1 (3 / 10 * (450 / 100))%float = (13 / 10)%float /\
  PrimFloat.ltb (3 / 10 * (150 / 100)) (45 / 100) = true.
Proof. repeat split; vm_compute; reflexivity. Qed.

(** Two doubles that [===] tells apart are not the same. *)
Lemma Double_neq (x y : float) : PrimFloat.eqb x y = false -> is_nan x = false -> x <> y.
Proof.
  intros H Hn ->. unfold is_nan in Hn. rewrite H in Hn. discriminate.
Qed.

(** C1, as stated, fails on [POST /entries]: for 150 g of apple it stores
    the double 0.44999999999999996 as protein, the product of 0.3 and
    1.5, which is not a number of one decimal place
    ([Math.round(p * 10) / 10] is 0.4). *)
Lemma derived_fields_counterexample :
  exists e meal' it' p,
    Entries.writes (num := float) pantry appleBreakfast e /\
    meals e !! O = Some meal' /\ foods meal' !! O = Some it' /\
    item_protein it' = Some p /\
    p = (3 / 10 * (150 / 100))%float /\
    num_eqb (round1 p) p = false /\
    ~ derivedBy Math_round round1 apple appleItem it'.
Proof.
  eexists _, _, _, _. split.
  { exists (fun _ => true), "u1"%string, 0%Z, None. eexists.
    vm_compute. reflexivity. }
  split; [reflexivity|]. split; [reflexivity|]. split; [reflexivity|].
  split; [vm_compute; reflexivity|]. split; [vm_compute; reflexivity|].
  intros (_ & _ & _ & Hp & _). apply (inj Some) in Hp. revert Hp.
  apply Double_neq; vm_compute; reflexivity.
Qed.

(** 10 g of apple for breakfast, 20 g and 30 g for lunch. *)
Lemma totals_add_up_witness :
  exists st' e,
    Entries.postEntries (num := float) (fun _ => true) "u1"
      (Entries.mkBody 0 appleDay None) pantry = (st', Created e) /\
    Forall (fun m => totalCalories m = Some (fieldSum item_calories (foods m)))
           (meals e) /\
    calories (dailyTotals e) = fieldSum item_calories (allFoods (meals e)).
Proof.
  eexists _, _. split; [vm_compute; reflexivity|].
  destruct (totals_add_up (fun _ => true) "u1"
              (Entries.mkBody (num := float) 0 appleDay None) pantry _ _ eq_refl)
    as (Hm & Ht & _).
  split; [exact Hm|]. exact (f_equal calories Ht).
Defined.

(** C6, as stated, fails on [POST /entries] in the last place of a
    double: with 10 g of apple in one meal and 20 g and 30 g in another,
    the meal totals are 5.2 and 26, whose sum is 31.2, and the daily
    calories, added item by item, are 31.200000000000003. *)
Lemma totals_counterexample :
  exists st' e m1 m2 tc1 tc2,
    Entries.postEntries (num := float) (fun _ => true) "u1"
      (Entries.mkBody 0 appleDay None) pantry = (st', Created e) /\
    meals e = [m1; m2] /\
    totalCalories m1 = Some tc1 /\ totalCalories m2 = Some tc2 /\
    tc1 = (52 / 10)%float /\ tc2 = 26%float /\
    PrimFloat.ltb (tc1 + tc2)%float (calories (dailyTotals e)) = true /\
    calories (dailyTotals e) <> (tc1 + tc2)%float.
Proof.
  eexists _, _, _, _, _, _. split; [vm_compute; reflexivity|].
  split; [reflexivity|]. split; [reflexivity|]. split; [reflexivity|].
  split; [vm_compute; reflexivity|]. split; [vm_compute; reflexivity|].
  split; [vm_compute; reflexivity|].
  apply Double_neq; vm_compute; reflexivity.
Qed.

End NutritionProofs.

(** ** More on the nutrition entries *)

(** *** The rationals *)

Local Open Scope Q_scope.

Lemma floor_bounds (x : Q) :
  inject_Z (Qfloor x) <= x /\ x < inject_Z (Qfloor x) + 1.
Proof.
  split; [apply Qfloor_le|].
  pose proof (Qlt_floor x) as H. rewrite inject_Z_plus in H. exact H.
Qed.

Lemma Qltb_lt (x y : Q) : Qltb x y = true <-> x < y.
Proof.
  unfold Qltb. rewrite negb_true_iff.
  destruct (Qle_bool y x) eqn:E.
  - apply Qle_bool_iff in E. split; [discriminate | intros; lra].
  - split; [intros _ | reflexivity].
    destruct (Qlt_le_dec x y) as [H|H]; [exact H|].
    apply Qle_bool_iff in H. congruence.
Qed.

Lemma Q_round_nonneg (x : Q) : 0 <= x -> 0 <= Q_round x.
Proof.
  intros H. unfold Q_round.
  change 0 with (inject_Z 0). rewrite <- Zle_Qle.
  change 0%Z with (Qfloor 0). apply Qfloor_resp_le. lra.
Qed.

Lemma Q_round1_nonneg (x : Q) : 0 <= x -> 0 <= round1 x.
Proof.
  intros H. unfold round1. cbn.
  assert (0 <= Q_round (x * inject_Z 10))
    by (apply Q_round_nonneg; change (inject_Z 10) with 10; lra).
  set (r := Q_round (x * inject_Z 10)) in *.
  assert (r / inject_Z 10 == r * (1 # 10)) as -> by (change (inject_Z 10) with 10; field).
  lra.
Qed.

Lemma scaled_nonneg (p q : Q) : 0 <= p -> 0 <= q -> 0 <= p * (q / 100).
Proof.
  intros Hp Hq. apply Qmult_le_0_compat; [exact Hp|].
  assert (q / 100 == q * (1 # 100)) as -> by field. lra.
Qed.

(** A sum of numbers that are not negative is not negative. *)
Lemma foldl_nonneg (a : Q) (l : list Q) :
  0 <= a -> Forall (fun x => 0 <= x) l -> 0 <= foldl Qplus a l.
Proof.
  intros Ha Hl. revert a Ha. induction Hl as [|x l Hx _ IH]; intros a Ha;
    [exact Ha|].
  simpl. apply IH. lra.
Qed.

Local Close Scope Q_scope.

Module NutritionExtras.
Import Nutrition NutritionProofs.
Import NutritionProofs.EntriesProofs NutritionProofs.MonolithProofs.
Import Nutrition.Samples.

(** *** Ranges *)

Section Ranges.
Local Open Scope Q_scope.
Context (db : gmap string (Food Q)) (Hdb : nonnegFoods db).

Lemma nonnegMacros_zero : nonnegMacros zeroTotals.
Proof. repeat split; vm_compute; discriminate. Qed.

Lemma nonnegMacros_sum (t : Macros Q) (l : list (Macros Q)) :
  nonnegMacros t -> Forall nonnegMacros l -> nonnegMacros (foldl addTotals t l).
Proof.
  intros Ht Hl. revert t Ht. induction Hl as [|x l (?&?&?&?) _ IH];
    intros t (?&?&?&?); [repeat split; assumption|].
  simpl. apply IH. repeat split; cbn; lra.
Qed.

Lemma pushed_nonneg it it' :
  0 <= quantity it -> Entries.pushed db it it' -> nonnegMacros (itemMacros it').
Proof.
  intros Hq (f & Hf & ->). destruct (Hdb _ _ Hf) as (?&?&?&?).
  repeat split; cbn; now apply scaled_nonneg.
Qed.

Lemma pushed_all_nonneg items items' :
  (forall it, it ∈ items -> 0 <= quantity it) ->
  Forall2 (Entries.pushed db) items items' ->
  Forall nonnegMacros (map itemMacros items').
Proof.
  intros Hq HF. induction HF as [|it it' items items' Hp _ IH]; constructor.
  - eapply pushed_nonneg; [apply Hq, list_elem_of_here | exact Hp].
  - apply IH. intros x Hx. apply Hq. now apply list_elem_of_further.
Qed.

Lemma setNutrition_nonneg f it :
  nonnegMacros (nutritionPer100g f) -> 0 <= quantity it ->
  nonnegMacros (itemMacros (Monolith.setNutrition f it)).
Proof.
  intros (?&?&?&?) Hq. repeat split; cbn [itemMacros Monolith.setNutrition
    derived default calories protein carbohydrates fat item_calories
    item_protein item_carbohydrates item_fat];
    [apply Q_round_nonneg | apply Q_round1_nonneg ..]; now apply scaled_nonneg.
Qed.

(** The items that count in a total of [POST /nutrition-entries]. *)
Lemma updated_all_nonneg items items' :
  (forall it, it ∈ items -> 0 <= quantity it) ->
  Forall2 (Monolith.updated db) items items' ->
  Forall nonnegMacros (map itemMacros (filter (Monolith.resolves db) items')).
Proof.
  intros Hq HF. induction HF as [|it it' items items' Hu _ IH]; [constructor|].
  assert (Forall nonnegMacros
            (map itemMacros (filter (Monolith.resolves db) items'))) as Hrest
    by (apply IH; intros x Hx; apply Hq; now apply list_elem_of_further).
  destruct (decide (Monolith.resolves db it')) as [Hr|Hr].
  - rewrite filter_cons_True by exact Hr. constructor; [|exact Hrest].
    unfold Monolith.updated in Hu. destruct (db !! food it) as [f|] eqn:Ef.
    + subst it'. apply setNutrition_nonneg; [now apply (Hdb (food it))|].
      apply Hq, list_elem_of_here.
    + subst it'. destruct Hr as [f Hf]. congruence.
  - now rewrite filter_cons_False by exact Hr.
Qed.

Lemma mealTotalsOf_nonneg m m' :
  (forall it, it ∈ foods m -> 0 <= quantity it) ->
  Forall2 (Monolith.updated db) (foods m) (foods m') ->
  nonnegMacros (Monolith.mealTotalsOf db m').
Proof.
  intros Hq HF. unfold Monolith.mealTotalsOf.
  apply nonnegMacros_sum; [apply nonnegMacros_zero|].
  now apply updated_all_nonneg with (items := foods m).
Qed.

End Ranges.

Lemma pantry_nonneg : nonnegFoods (Foods pantry).
Proof.
  intros id f H. unfold pantry in H. simpl in H.
  apply lookup_insert_Some in H as [[_ <-]|[_ H]];
    [|rewrite lookup_empty in H; discriminate].
  repeat split; vm_compute; discriminate.
Qed.

Lemma appleBreakfast_nonneg : nonnegQuantities appleBreakfast.
Proof.
  intros meal it Hm Hit. apply list_elem_of_singleton in Hm as ->.
  apply list_elem_of_singleton in Hit as ->. vm_compute. discriminate.
Qed.

Local Open Scope Q_scope.





Local Close Scope Q_scope.

(** *** [POST /entries] as an upsert *)

Section Upsert.
Context {num : Type} {N : Number num}.

Lemma entry_findOne_insert (p : NutritionEntry num -> bool) l i x y :
  Entries.findOne p l = Some (i, x) -> p y = true ->
  Entries.findOne p (<[i := y]> l) = Some (i, y).
Proof.
  revert i. induction l as [|e l IH]; intros i H Hy; simpl in H; [discriminate|].
  destruct (p e) eqn:Ep.
  - injection H as <- <-. simpl. now rewrite Hy.
  - destruct (Entries.findOne p l) as [[j z]|] eqn:Ef; [|discriminate].
    injection H as <- <-. simpl. rewrite Ep.
    now rewrite (IH j eq_refl Hy).
Qed.

Lemma entry_findOne_app (p : NutritionEntry num -> bool) l y :
  Entries.findOne p l = None -> p y = true ->
  Entries.findOne p (l ++ [y]) = Some (length l, y).
Proof.
  induction l as [|e l IH]; intros H Hy; simpl in *.
  - now rewrite Hy.
  - destruct (p e); [discriminate|].
    destruct (Entries.findOne p l) as [[j z]|]; [discriminate|].
    now rewrite (IH eq_refl Hy).
Qed.

(** A new entry is in the day that starts at its own date. *)
Lemma sameDay_start u d (w : WaterIntake num) ms t :
  Entries.sameDay u d (mkNutritionEntry u d ms t w) = true.
Proof.
  unfold Entries.sameDay, one_day. simpl.
  rewrite bool_decide_eq_true_2 by reflexivity.
  rewrite (proj2 (Z.leb_le d d)) by lia.
  rewrite (proj2 (Z.ltb_lt _ _)) by lia. reflexivity.
Qed.

(** [POST /entries] is idempotent: the request that was answered 201,
    sent again, finds the entry it wrote, leaves the store as it is and is
    answered with the same entry. *)
Theorem entries_idempotent valid u (body : Entries.Body num) st st' e :
  Entries.postEntries valid u body st = (st', Created e) ->
  Entries.postEntries valid u body st' = (st', Created e).
Proof.
  unfold Entries.postEntries. intros H.
  destruct (Entries.mealsLoop (Foods st) (Entries.body_meals body) [] zeroTotals)
    as [err|[pm tot]] eqn:Em; [discriminate|].
  destruct (Entries.findOne _ (NutritionEntries st)) as [[i old]|] eqn:Ef.
  - destruct (valid _) eqn:Ev; [|discriminate].
    injection H as <- <-. cbn [Foods NutritionEntries]. rewrite Em.
    pose proof Ef as [Hi Hp]%entry_findOne_Some.
    erewrite entry_findOne_insert; [| exact Ef | exact Hp].
    cbn [user date waterIntake].
    destruct (Entries.body_waterIntake body) as [w|];
      rewrite Ev, list_insert_insert_eq; reflexivity.
  - destruct (valid _) eqn:Ev; [|discriminate].
    injection H as <- <-. cbn [Foods NutritionEntries]. rewrite Em.
    erewrite entry_findOne_app; [| exact Ef | apply sameDay_start].
    cbn [user date waterIntake].
    destruct (Entries.body_waterIntake body) as [w|];
      rewrite Ev; f_equal; f_equal;
      apply list_insert_id; rewrite lookup_app_r by lia;
      now rewrite Nat.sub_diag.
Qed.

(** Whatever its answer, [POST /entries] leaves the foods as they are,
    adds at most one entry and removes none, and leaves every entry of
    another user where it is. *)
Theorem entries_upsert valid u (body : Entries.Body num) st :
  let st' := fst (Entries.postEntries valid u body st) in
  Foods st' = Foods st /\
  (length (NutritionEntries st) <= length (NutritionEntries st')
   <= S (length (NutritionEntries st)))%nat /\
  forall j x, NutritionEntries st !! j = Some x -> user x <> u ->
              NutritionEntries st' !! j = Some x.
Proof.
  unfold Entries.postEntries.
  destruct (Entries.mealsLoop _ _ _ _) as [err|[pm tot]]; simpl;
    [split; [reflexivity|]; split; [lia | auto]|].
  destruct (Entries.findOne _ _) as [[i old]|] eqn:Ef.
  - destruct (valid _); simpl; (split; [reflexivity|]);
      [|split; [lia | auto]].
    rewrite length_insert. split; [lia|].
    intros j x Hj Hx. apply entry_findOne_Some in Ef as [Hi Hp].
    destruct (decide (i = j)) as [->|Hne].
    + rewrite Hi in Hj. injection Hj as <-.
      unfold Entries.sameDay in Hp.
      apply andb_true_iff in Hp as [Hp _]. apply andb_true_iff in Hp as [Hp _].
      apply bool_decide_eq_true in Hp. contradiction.
    + now rewrite list_lookup_insert_ne.
  - destruct (valid _); simpl; (split; [reflexivity|]);
      [|split; [lia | auto]].
    rewrite length_app. simpl. split; [lia|].
    intros j x Hj _. now apply lookup_app_l_Some.
Qed.

(** [POST /nutrition-entries] looks for no entry of the day: every
    request that is answered 201 adds an entry, so that the same request
    sent twice leaves two entries with the same meals and totals. *)
Theorem monolith_appends t1 t2 valid u (body : Monolith.Body num) st st1 e1 st2 e2 :
  Monolith.postNutritionEntries t1 valid u body st = (st1, Created e1) ->
  Monolith.postNutritionEntries t2 valid u body st1 = (st2, Created e2) ->
  NutritionEntries st2 = NutritionEntries st ++ [e1; e2] /\
  meals e2 = meals e1 /\ dailyTotals e2 = dailyTotals e1.
Proof.
  unfold Monolith.postNutritionEntries. intros H1 H2.
  destruct (Monolith.mealsLoop (Foods st) _ _) as [ms' tot] eqn:Em.
  destruct (valid _); [|discriminate]. injection H1 as <- <-.
  simpl in H2. rewrite Em in H2.
  destruct (valid _); [|discriminate]. injection H2 as <- <-.
  simpl. rewrite <- app_assoc. auto.
Qed.

End Upsert.

Lemma entries_idempotent_witness :
  exists st' e,
    Entries.postEntries (num := float) (fun _ => true) "u1"
      (Entries.mkBody 0 appleBreakfast None) pantry = (st', Created e) /\
    Entries.postEntries (fun _ => true) "u1"
      (Entries.mkBody 0 appleBreakfast None) st' = (st', Created e) /\
    NutritionEntries st' = [e].
Proof.
  pose proof (entries_idempotent (num := float) (fun _ => true) "u1"
                (Entries.mkBody 0 appleBreakfast None) pantry _ _ eq_refl) as H.
  eexists _, _. split; [reflexivity|]. split; [exact H | reflexivity].
Defined.

Lemma monolith_appends_witness :
  exists st1 e1 st2 e2,
    Monolith.postNutritionEntries (num := float) 7 (fun _ => true) "u1"
      (Monolith.mkBody None appleBreakfast None) pantry = (st1, Created e1) /\
    Monolith.postNutritionEntries 8 (fun _ => true) "u1"
      (Monolith.mkBody None appleBreakfast None) st1 = (st2, Created e2) /\
    NutritionEntries st2 = [e1; e2] /\ dailyTotals e2 = dailyTotals e1.
Proof.
  destruct (monolith_appends (num := float) 7 8 (fun _ => true) "u1"
              (Monolith.mkBody None appleBreakfast None) pantry
              _ _ _ _ eq_refl eq_refl) as (Hl & _ & Ht).
  eexists _, _, _, _. split; [reflexivity|]. split; [reflexivity|].
  split; [exact Hl | exact Ht].
Defined.

End NutritionExtras.

(** ** Goals *)

Module GoalProofs.
Import Goals.

Section Routes.
Context {num : Type} {N : Number num}.
Local Open Scope num_scope.

(** *** Properties that the schema does not declare *)

(** No milestone passes the test of [checkMilestoneCompletion], which
    compares with [milestone.targetValue]. *)
Lemma crossed_never p v (m : Milestone num) : crossed p v m = false.
Proof. unfold crossed, lt_undefined, m_targetValue. apply andb_false_r. Qed.

Lemma checkMilestoneCompletion_nil (goal : Goal num) p v :
  checkMilestoneCompletion goal p v = [].
Proof.
  unfold checkMilestoneCompletion.
  induction (milestones goal) as [|m ms IH]; [reflexivity|].
  cbn [List.filter]. now rewrite crossed_never.
Qed.

(** The push on [goal.progressHistory] throws. *)
Lemma pushProgressEntry_throws (goal : Goal num) e st :
  pushProgressEntry goal e st = (st, None).
Proof. reflexivity. Qed.

(** *** The notifications *)

(** The two notifications the route builds do not pass the enums of the
    Notification schema: ['achievement'] and ['milestone'] are not among
    its types, nor ['Goal'] among the types of a related entity. *)
Lemma route_notifications_rejected id (goal : Goal num) m :
  notificationEnums (completionNotification id goal) = false /\
  notificationEnums (milestoneNotification id goal m) = false.
Proof. split; reflexivity. Qed.

Lemma handleGoalCompletion_throws (env : Env num) id goal st :
  handleGoalCompletion env id goal st = (st, None).
Proof. reflexivity. Qed.

Lemma createMilestoneNotification_throws (env : Env num) id goal m st :
  createMilestoneNotification env id goal m st = (st, None).
Proof. reflexivity. Qed.

(** *** The progress route *)

Lemma goal_findOne_Some id u (st : Store num) goal :
  findOne id u st = Some goal -> Goal_docs st !! id = Some goal /\ user goal = u.
Proof.
  unfold findOne. destruct (Goal_docs st !! id) as [g|]; [|discriminate].
  case_bool_decide; [|discriminate]. intros [= ->]. auto.
Qed.

(** The statements of the [try] block end at the push. *)
Lemma progressBody_throws (env : Env num) id body goal0 st :
  progressBody env id body goal0 st = (st, None).
Proof. reflexivity. Qed.

(** The three answers of the route; none of them comes with a change of
    the store. *)
Lemma postProgress_answers (env : Env num) u id body st :
  postProgress env u id body st
  = (st, match findOne id u st with
         | None => NotFound
         | Some goal =>
             if bool_decide (status goal <> active) then BadRequest
             else ServerError
         end).
Proof.
  unfold postProgress. destruct (findOne id u st) as [goal|]; [|reflexivity].
  case_bool_decide; [reflexivity|]. now rewrite progressBody_throws.
Qed.

Lemma postProgress_active (env : Env num) u id body st goal :
  findOne id u st = Some goal -> status goal = active ->
  postProgress env u id body st = (st, ServerError).
Proof.
  intros Hf Ha. rewrite postProgress_answers, Hf.
  rewrite bool_decide_eq_false_2; [reflexivity|].
  intros Hn. now apply Hn.
Qed.

Lemma postProgressSeq_store id (calls : list (Env num * string * Body num))
    st st' rs :
  postProgressSeq id calls st = (st', rs) -> st' = st.
Proof.
  revert st st' rs.
  induction calls as [|[[env u] body] calls IH]; intros st st' rs H; simpl in H.
  - now injection H as <- _.
  - rewrite postProgress_answers in H.
    destruct (postProgressSeq id calls st) as [st2 rs'] eqn:E.
    injection H as <- _. now apply IH in E.
Qed.

Lemma completions_none id (calls : list (Env num * string * Body num)) st :
  completions id calls st = O.
Proof.
  revert st. induction calls as [|[[env u] body] calls IH]; intros st;
    [reflexivity|].
  simpl. rewrite postProgress_answers. simpl. rewrite IH.
  case_bool_decide as Hc; [|reflexivity]. destruct Hc; contradiction.
Qed.

(** *** The claims on the goal-progress update *)

(** C2.  An update on an active goal of the caller whose value passes
    the value of a milestone that is not achieved is answered 500, and
    nothing is stored: the milestone stays as it is and is reported to
    nobody.  The test of [checkMilestoneCompletion] is false of the
    milestone as well, for every previous and new value: the function
    marks and returns no milestone. *)
Theorem milestone_never_marked (env : Env num) u id body st goal m :
  findOne id u st = Some goal -> status goal = active ->
  m ∈ milestones goal -> achieved m = false ->
  (currentValue goal <? m_value m) = true ->
  (body_value body >=? m_value m) = true ->
  postProgress env u id body st = (st, ServerError) /\
  (forall p v, crossed p v m = false) /\
  (forall p v, checkMilestoneCompletion goal p v = []).
Proof.
  intros Hf Ha _ _ _ _. split; [now apply (postProgress_active env u id body st goal)|].
  split; [intros; apply crossed_never | intros; apply checkMilestoneCompletion_nil].
Qed.

(** C4.  An update on an active goal of the caller is answered 500 and
    leaves the store as it was: no record is appended, and the stored
    [currentValue] is not overwritten.  The push on
    [goal.progressHistory] is the statement that throws, whatever the
    goal and the record. *)
Theorem history_never_appended (env : Env num) u id body st goal :
  findOne id u st = Some goal -> status goal = active ->
  postProgress env u id body st = (st, ServerError) /\
  Goal_docs (fst (postProgress env u id body st)) !! id = Some goal /\
  (forall (g : Goal num) e st0, pushProgressEntry g e st0 = (st0, None)).
Proof.
  intros Hf Ha. rewrite (postProgress_active env u id body st goal Hf Ha).
  split; [reflexivity|]. split; [now apply goal_findOne_Some in Hf|].
  intros. apply pushProgressEntry_throws.
Qed.

(** C5.  No progress update is answered 200: whatever the goal, the
    caller and the body, no [progressPercentage] is reported. *)
Theorem progress_never_reported (env : Env num) u id body st g pct done isC :
  snd (postProgress env u id body st) <> Ok g pct done isC.
Proof.
  rewrite postProgress_answers. simpl.
  destruct (findOne id u st) as [goal|]; [|discriminate].
  case_bool_decide; discriminate.
Qed.

(** C7.  A progress update on a goal of the caller whose status is not
    [active] is answered 400 ([InvalidState]) and leaves the whole store
    as it was: no record is appended, [currentValue], the milestones and
    the status keep their values, and no notification is created. *)
Theorem inactive_goal_rejected (env : Env num) u id body st goal :
  findOne id u st = Some goal -> status goal <> active ->
  postProgress env u id body st = (st, BadRequest) /\
  InvalidState (snd (postProgress env u id body st)).
Proof.
  intros Hf Hs. unfold postProgress, InvalidState. rewrite Hf.
  rewrite bool_decide_eq_true_2 by exact Hs. auto.
Qed.

(** C8.  No sequence of updates changes the store, so no milestone that
    is achieved is ever set back.  Two updates in a row of an active goal
    of the caller with the same value are both answered 500: no record
    is appended by either, and nothing is reported. *)
Theorem repeated_update_fails :
  (forall id (calls : list (Env num * string * Body num)) st st' rs,
     postProgressSeq id calls st = (st', rs) -> st' = st) /\
  (forall (env1 env2 : Env num) u id body st goal,
     findOne id u st = Some goal -> status goal = active ->
     postProgressSeq id [(env1, u, body); (env2, u, body)] st
     = (st, [ServerError; ServerError])).
Proof.
  split; [apply postProgressSeq_store|].
  intros env1 env2 u id body st goal Hf Ha. simpl.
  rewrite (postProgress_active env1 u id body st goal Hf Ha).
  now rewrite (postProgress_active env2 u id body st goal Hf Ha).
Qed.


(** C10.  An update on an active goal of the caller is answered 500, and
    the store, notifications included, is as it was: the caller observes
    an error whether a milestone or the goal would complete or not.
    Nothing swallows a failure to create a notification either:
    [handleGoalCompletion] and [createMilestoneNotification] throw
    whenever the notification does not validate, which it never does. *)
Theorem notification_never_swallowed (env : Env num) u id body st goal :
  findOne id u st = Some goal -> status goal = active ->
  postProgress env u id body st = (st, ServerError) /\
  (forall env' id' goal' st0,
     handleGoalCompletion (num := num) env' id' goal' st0 = (st0, None)) /\
  (forall env' id' goal' m st0,
     createMilestoneNotification (num := num) env' id' goal' m st0 = (st0, None)).
Proof.
  intros Hf Ha. split; [now apply (postProgress_active env u id body st goal)|].
  split; intros; reflexivity.
Qed.

End Routes.

Import Samples.

(** 30 on the goal that starts at 0 with a milestone at 25. *)
Lemma milestone_never_marked_witness :
  postProgress (num := float) lenient "u1" "g1" (update 30) store1
  = (store1, ServerError) /\
  Goal_docs (num := float) store1 !! "g1" = Some run100 /\
  checkMilestoneCompletion (num := float) run100 (num_of_Z 0) (num_of_Z 30) = [].
Proof.
  destruct (milestone_never_marked (num := float) lenient "u1" "g1" (update 30)
              store1 run100 quarter) as (H & _ & Hc);
    [reflexivity | reflexivity | apply list_elem_of_here | reflexivity
    | reflexivity | reflexivity |].
  split; [exact H|]. split; [reflexivity | apply Hc].
Defined.

Lemma history_never_appended_witness :
  postProgress (num := float) lenient "u1" "g1" (update 30) store1
  = (store1, ServerError) /\
  Goal_docs (fst (postProgress (num := float) lenient "u1" "g1" (update 30)
                    store1)) !! "g1" = Some run100.
Proof.
  destruct (history_never_appended (num := float) lenient "u1" "g1" (update 30)
              store1 run100) as (H & Hg & _); [reflexivity | reflexivity |].
  split; [exact H | exact Hg].
Defined.

Lemma inactive_goal_rejected_witness :
  postProgress (num := float) lenient "u1" "g3" (update 30) store3
  = (store3, BadRequest) /\
  InvalidState (snd (postProgress (num := float) lenient "u1" "g3" (update 30)
                       store3)).
Proof.
  apply (inactive_goal_rejected (num := float) lenient "u1" "g3" (update 30)
           store3 resting); [reflexivity | discriminate].
Defined.

(** Twice 0 on the goal whose current value is 0. *)
Lemma repeated_update_fails_witness :
  currentValue (num := float) run100 = num_of_Z 0 /\
  postProgressSeq (num := float) "g1"
    [(lenient, "u1"%string, update 0); (lenient, "u1"%string, update 0)]
    store1
  = (store1, [ServerError; ServerError]).
Proof.
  split; [reflexivity|].
  apply (proj2 (repeated_update_fails (num := float)) lenient lenient "u1" "g1"
           (update 0) store1 run100); reflexivity.
Defined.


(** 100 on the goal of target 100 with milestones at 25 and 50. *)
Lemma notification_never_swallowed_witness :
  exists st',
    postProgress (num := float) lenient "u1" "g1" (update 100) store1
    = (st', ServerError) /\
    Notifications st' = [] /\ Goal_docs st' !! "g1" = Some run100.
Proof.
  destruct (notification_never_swallowed (num := float) lenient "u1" "g1"
              (update 100) store1 run100) as (H & _); [reflexivity..|].
  eexists. split; [exact H|]. split; reflexivity.
Defined.

End GoalProofs.

(** ** More on the goals *)

Module GoalExtras.
Import Goals GoalProofs Goals.Samples.

Section Routes.
Context {num : Type} {N : Number num}.

(** *** Ownership *)

(** None of the three writing routes changes or removes a goal that is
    owned by another user than the caller. *)
Theorem other_users_goals_untouched (env : Env num) u id st gid g0 :
  Goal_docs st !! gid = Some g0 -> user g0 <> u ->
  (forall body, Goal_docs (fst (postProgress env u id body st)) !! gid = Some g0) /\
  (forall body, Goal_docs (fst (putGoal env u id body st)) !! gid = Some g0) /\
  Goal_docs (fst (deleteGoal u id st)) !! gid = Some g0.
Proof.
  intros Hg Hu.
  assert (forall goal0, findOne id u st = Some goal0 -> id <> gid) as Hne.
  { intros goal0 Hf -> . apply goal_findOne_Some in Hf as [Hf Hu'].
    rewrite Hg in Hf. injection Hf as <-. contradiction. }
  split; [|split].
  - intros body. now rewrite postProgress_answers.
  - intros body. unfold putGoal.
    destruct (findOne id u st) as [goal0|] eqn:Ef; [|exact Hg].
    unfold mbind, Async_bind, saveGoal, handleGoalCompletion, saveNotification,
      throw, mret, Async_ret.
    destruct (validGoal env _); [|exact Hg].
    destruct (_ && _); [destruct (_ && validNotification env _)|]; simpl;
      rewrite lookup_insert_ne by (eapply Hne; eauto); exact Hg.
  - unfold deleteGoal.
    destruct (findOne id u st) as [goal0|] eqn:Ef; [|exact Hg].
    simpl. rewrite lookup_delete_ne by (eapply Hne; eauto). exact Hg.
Qed.

(** *** [GET /:id] *)

(** [GET /:id] of a goal of the caller is answered 500:
    [getRecentProgressForGoal] sorts [goal.progressHistory], which reads
    [undefined]. *)
Theorem get_goal_fails u id (st : Store num) goal :
  findOne id u st = Some goal -> getGoal u id st = GetServerError.
Proof. intros Hf. unfold getGoal. now rewrite Hf. Qed.

(** *** [PUT /:id] and [DELETE /:id] *)

Lemma assign_status (goal : Goal num) body :
  upd_status body = Some completed -> status (assign goal body) = completed.
Proof. intros H. unfold assign. simpl. now rewrite H. Qed.

(** [PUT /:id] saves the goal with the properties of the body assigned
    and answers with it, or answers 404 or 500 and leaves the store as it
    is; it never creates a notification: its test for a completion is made
    on the goal after the assignment, when the status already is the one
    of the body. *)
Theorem put_never_notifies (env : Env num) u id body st :
  putGoal env u id body st
  = match findOne id u st with
    | None => (st, PutNotFound)
    | Some goal0 =>
        if validGoal env (assign goal0 body)
        then (mkStore (<[id := assign goal0 body]> (Goal_docs st))
                      (Notifications st),
              Updated (assign goal0 body))
        else (st, PutServerError)
    end.
Proof.
  unfold putGoal. destruct (findOne id u st) as [goal0|]; [|reflexivity].
  unfold mbind, Async_bind, saveGoal, throw, mret, Async_ret.
  destruct (validGoal env (assign goal0 body)); [|reflexivity].
  assert (bool_decide (upd_status body = Some completed)
          && bool_decide (status (assign goal0 body) <> completed) = false) as ->;
    [|reflexivity].
  case_bool_decide as Hs; [|reflexivity].
  rewrite bool_decide_eq_false_2; [reflexivity|].
  intros Hne. apply Hne. now apply assign_status.
Qed.

(** A goal of the caller that is not active becomes active again by a
    [PUT /:id] with the status [active] and keeps everything else it
    had; from then on a progress update is not refused as on an inactive
    goal. *)
Theorem put_reopens (env : Env num) u id st st1 g1 goal0 :
  findOne id u st = Some goal0 ->
  putGoal env u id (statusOnly active) st = (st1, Updated g1) ->
  g1 = mkGoal (user goal0) (title goal0) active (targetValue goal0)
         (currentValue goal0) (milestones goal0) /\
  findOne id u st1 = Some g1 /\
  forall env2 body2, snd (postProgress env2 u id body2 st1) <> BadRequest.
Proof.
  intros Hf H. unfold putGoal in H. rewrite Hf in H.
  unfold mbind, Async_bind, saveGoal, throw, mret, Async_ret in H.
  destruct (validGoal env _); [|discriminate]. simpl in H.
  injection H as <- <-.
  apply goal_findOne_Some in Hf as [_ Hown].
  assert (findOne id u
            (mkStore (<[id := assign goal0 (statusOnly active)]> (Goal_docs st))
                     (Notifications st))
          = Some (assign goal0 (statusOnly active))) as Hf1.
  { unfold findOne. simpl. rewrite lookup_insert_eq.
    now rewrite bool_decide_eq_true_2 by exact Hown. }
  split; [reflexivity|]. split; [exact Hf1|].
  intros env2 body2. rewrite postProgress_answers, Hf1. cbn [snd].
  rewrite bool_decide_eq_false_2 by (intros Hn; apply Hn; reflexivity).
  discriminate.
Qed.

(** After a [DELETE /:id] that is answered 200 the goal is gone, and the
    notifications are as before: a progress update, a [GET] and another
    [DELETE] of the same id are answered 404, whoever asks, and change
    nothing. *)
Theorem delete_then_not_found u id (st st' : Store num) :
  deleteGoal u id st = (st', Deleted) ->
  Goal_docs st' = delete id (Goal_docs st) /\
  Notifications st' = Notifications st /\
  forall u', (forall env body, postProgress env u' id body st' = (st', NotFound)) /\
             getGoal u' id st' = GetNotFound /\
             deleteGoal u' id st' = (st', DeleteNotFound).
Proof.
  unfold deleteGoal. destruct (findOne id u st) as [goal|]; [|discriminate].
  intros [= <-]. split; [reflexivity|]. split; [reflexivity|].
  intros u'.
  assert (forall s, findOne id u' (mkStore (delete id (Goal_docs st)) s) = None)
    as Hnone by (intros s; unfold findOne; simpl; now rewrite lookup_delete_eq).
  unfold postProgress, getGoal, deleteGoal. rewrite Hnone. auto.
Qed.

End Routes.

Lemma other_users_goals_untouched_witness :
  Goal_docs (num := float) store1 !! "g1" = Some run100 /\
  user (num := float) run100 <> "u2"%string /\
  Goal_docs (fst (deleteGoal (num := float) "u2" "g1" store1)) !! "g1"
  = Some run100.
Proof.
  split; [reflexivity|]. split; [discriminate|].
  apply (other_users_goals_untouched (num := float) lenient "u2" "g1" store1
           "g1" run100); [reflexivity | discriminate].
Defined.

Lemma get_goal_fails_witness :
  findOne (num := float) "g1" "u1" store1 = Some run100 /\
  getGoal (num := float) "u1" "g1" store1 = GetServerError.
Proof.
  split; [reflexivity|].
  apply (get_goal_fails (num := float) "u1" "g1" store1 run100). reflexivity.
Defined.

(** The paused goal, reopened, is not refused as inactive. *)
Lemma put_reopens_witness :
  exists st1 g1,
    findOne (num := float) "g3" "u1" store3 = Some resting /\
    putGoal lenient "u1" "g3" (statusOnly active) store3 = (st1, Updated g1) /\
    snd (postProgress lenient "u1" "g3" (update 20) store3) = BadRequest /\
    snd (postProgress lenient "u1" "g3" (update 20) st1) <> BadRequest.
Proof.
  eexists _, _. split; [reflexivity|]. split; [reflexivity|].
  split; [reflexivity|].
  apply (put_reopens (num := float) lenient "u1" "g3" store3 _ _ resting
           eq_refl eq_refl).
Defined.

Lemma delete_then_not_found_witness :
  exists st',
    deleteGoal (num := float) "u1" "g1" store1 = (st', Deleted) /\
    getGoal "u1" "g1" store1 <> GetNotFound /\
    getGoal "u1" "g1" st' = GetNotFound.
Proof.
  eexists. split; [reflexivity|].
  split; [discriminate|].
  apply (delete_then_not_found (num := float) "u1" "g1" store1 _ eq_refl).
Defined.

(** *** Percentage and completion, on the rationals *)

Local Open Scope Q_scope.

Lemma percentage_value (goal : Goal Q) :
  0 < targetValue goal ->
  calculateGoalProgress goal
  == Qmin (currentValue goal / targetValue goal * 100) 100.
Proof.
  intros Ht. unfold calculateGoalProgress. cbn.
  destruct (Qeq_bool (targetValue goal) (inject_Z 0)) eqn:E; [|reflexivity].
  apply Qeq_bool_eq in E. change (inject_Z 0) with 0 in E. lra.
Qed.

Lemma ratio_le c t x : 0 < t -> (x <= c / t * 100 <-> x * t <= c * 100).
Proof.
  intros Ht. assert (c / t * 100 == c * 100 / t) as -> by (field; lra).
  split; intros H.
  - apply (Qmult_le_r _ _ (/ t)); [now apply Qinv_lt_0_compat|].
    assert (x * t * / t == x) as -> by (field; lra). exact H.
  - apply (Qmult_le_r _ _ (/ t)) in H; [|now apply Qinv_lt_0_compat].
    assert (x * t * / t == x) as E by (field; lra). rewrite E in H. exact H.
Qed.



End GoalExtras.
